(* ===== verification/_CoqProject ===== *)
-Q . S2P
Prelude.v
JsString.v
JsValue.v
Regex.v
Extract.v
ExtractLoops.v
Search.v
Decode.v
Excel.v
Dom.v
App.v
