(* ===== verification/Prelude.v ===== *)
(** * CheckMyFinals: a verification development of the exam-timetable parser and search

    The program (src/js/parse.js, src/js/search.js) reads an exam timetable
    spreadsheet, extracts one record per course row, and answers prefix
    queries on course codes in the browser.

    ** Parts of the program and how they interact

    - [parseFile] (parse.js) dispatches on the file name to a CSV decoder
      ([parseCSVFile]) or to SheetJS ([parseExcelFile]); both hand a raw
      grid (an array of rows, each an array of cells) to a callback.
    - [extractExamData] (parse.js) scans the grid once: it locates the
      header row among the first 20 rows, then classifies every later row
      as a date header (cell 0 names a weekday or a month), a course row
      (cell 1 matches /^[A-Z]{2,4}\s*\d{3}/) or noise, carrying the current
      date and the current time (merged cells) from row to row.
    - [searchExams] (search.js) filters the global [examsData] by a
      normalised prefix of the query; [processData] replaces [examsData]
      wholesale after a load; [displayResults] and [setUploadStatus] write
      the DOM.

    ** Files, in dependency order

    - [Prelude] (this file): the [cmf_scope] notations, the state monad
      used by the UI model, the JavaScript [for] statement with [break]
      and [continue] ([for_loop], run with fuel), the [cmf] hint
      database, tactics, and generic lemmas on lists and folds.
    - [JsString]: the ECMAScript string built-ins the code calls (trim,
      toUpperCase, includes, startsWith, endsWith, split, join and the
      three [replace] calls), on 7-bit ASCII text.
    - [JsValue]: JavaScript cell values (strings, numbers, booleans,
      undefined, null), truthiness, [x || ''], [String(x)], [typeof] and
      array indexing out of range.
    - [Regex]: the fragment of ECMAScript regular expressions the code
      uses, a backtracking matcher in continuation-passing style, its
      language semantics and the correctness theorem; the two patterns of
      [extractExamData] as values of the fragment.
    - [Extract]: [cleanString], the header scan, the row step and
      [extractExamData], with the declarative specification of extraction
      and the refinement theorem; the invariant that every emitted entry
      is well formed.
    - [ExtractLoops]: the two [for] loops of [extractExamData] as written,
      by index, with the [break] of the header scan.
    - [Search]: [searchExams] as a pure function of the stored entries and
      the query, with its prefix semantics, and the class [ExamSource]: what
      the search needs of the extractor, proved against the class and
      discharged by [extractExamData].
    - [Decode]: [parseFile]'s dispatch on the lower-cased name and the CSV
      decoder of [parseCSVFile] as a pure function of the text, with its
      round trip, CR LF line ends and the quoted-comma defect.
    - [Excel]: lines 35-39 of [parseExcelFile]: the workbook record
      ([SheetNames], and [Sheets] as a [gmap] from names), the first sheet
      and [sheet_to_json].
    - [Dom]: the eight DOM elements the page writes, as records of the
      fields the handlers read and write, with the setters of the code.
    - [App]: the page of search.js.  Its state is a record of the global
      [examsData], the DOM elements and the FileReader reads started and
      not yet delivered.  Module [Page] holds [setUploadStatus],
      [processData], [searchExams], [handleSearch], [displayResults],
      [handleFileChange], the callbacks it passes, and [parseFile],
      [parseExcelFile], [parseCSVFile] with their [onload] callbacks from
      parse.js, each a computation of the state monad below, statement by
      statement.  An [event] (file chosen,
      a pending read delivered in any order, typing, a key) runs one
      handler; [reachable] is the closure of these steps.

    ** What the theorems show

    - Extraction (C1-C6, C12, C13, C16): the [searchableCode] invariant,
      the origin of every entry, refinement against a declarative
      specification over the rows above, time carry-over and its reset,
      the header scan window, dates only from date headers of at least
      two cells (C12), length bound, numeric cells; every entry well
      formed (C33); the [for] loops terminate and compute the same result
      (C32).
    - Search (C7-C11, C38): prefix semantics, order (sublist), every
      extracted entry found by its own code (against [ExamSource]),
      message exactly when no result, the blank query, a longer query
      finds fewer entries (C38).
    - Regex (C14, C15): the two patterns characterised exactly, from the
      correctness of the matcher.
    - Decoding (C17-C22, C34): CSV round trip, CR LF, case-insensitive
      dispatch, the rejection condition, no date from a CSV file holds a
      comma (C22), one row per line and one cell per comma plus one
      (C34); only the first sheet of a workbook is read (C17).
    - Page (C23-C31, C35-C37, C39): two invariants of all reachable pages,
      [processData] and the Enter key functionally, an end-to-end
      load-then-search theorem, an empty load leaves the page but the
      status unchanged (C28), reads completed out of order leave the
      second name with the first file's entries (C29), unescaped HTML,
      the rejected file; reads completed in order leave the last file
      (C35, the serialisation the specification asks for), both outcomes
      of an Excel read (C36), the table shows a search of the stored
      entries after every event but an empty load (C37), and every
      pending read uses the reader its file name selects (C39).

    ** Fuel and bounds

    Only [ExtractLoops] uses fuel: [for_loop] runs at most [fuel]
    iterations.  The header scan gets 20, its bound [Math.min(20,
    rawData.length)] never exceeds it; the row loop gets [rawData.length],
    at least its [rawData.length - dataStart] iterations.  C32 shows this
    fuel never runs out.  Elsewhere every loop is a structural recursion
    or a fold over the grid or the results, and the matcher recurses on
    the pattern and the input.

    ** Not modelled, and plans for later sittings

    - SheetJS's decoder [XLSX.read] is a library the code only calls: a
      file carries the workbook it yields or the message it throws, and a
      worksheet is the grid [sheet_to_json] yields for it.  The rest of
      [parseExcelFile] is modelled ([Excel], [App]).
    - The wiring of the handlers to the page and its initial DOM live in
      index.html, which is not in the repository: [event] stands for the
      wiring and [init_app] for a page whose sections start hidden.
    - Logging ([console.log], [console.error]) changes no state.
    - Later: numbers as JavaScript renders them (number formatting of
      cells), Unicode white space and case mapping beyond ASCII.

    ** Modelling choices

    - Text is 7-bit ASCII: JavaScript whitespace is restricted to TAB, LF,
      VT, FF, CR and SPACE, and [toUpperCase] to a-z.  Code units above
      127 are treated as ordinary non-space characters that case mapping
      leaves alone (JavaScript maps Latin-1 letters and treats U+00A0 as
      space; no theorem depends on such characters).
    - A number cell is represented by its JavaScript [ToString] text, which
      determines both [String(x)] and truthiness exactly.
    - Logging ([console.log]) is not modelled: it does not change state. *)

From Stdlib Require Import Ascii String.
From stdpp Require Import base list strings.
From Stdlib Require Import Lia.

(** stdpp declares string concatenation [simpl never]; the models compute
    with it, so it is given back its reduction on a leading constructor. *)
#[global] Arguments String.append : simpl nomatch.

Declare Scope cmf_scope.
Delimit Scope cmf_scope with cmf.

Create HintDb cmf discriminated.
#[export] Hint Constants Transparent : cmf.
Create Rewrite HintDb cmf_rw.

(** ** Tactics *)

(** Turn the boolean connectives of a hypothesis into propositions. *)
Ltac bool_hyps :=
  repeat match goal with
  | H : (_ && _)%bool = true |- _ => apply andb_prop in H as [? ?]
  | H : (_ || _)%bool = false |- _ => apply orb_false_elim in H as [? ?]
  | H : negb _ = true |- _ => apply negb_true_iff in H
  | H : negb _ = false |- _ => apply negb_false_iff in H
  end.

(** Case on every [if] of the goal, recording the equation. *)
Ltac case_ifs :=
  repeat match goal with
  | |- context [if ?b then _ else _] =>
      let E := fresh "E" in destruct b eqn:E
  end.

(** ** Generic lemmas on lists *)

Section ListFacts.
Context {A : Type}.

Lemma filter_bool_sublist (f : A -> bool) (l : list A) :
  List.filter f l `sublist_of` l.
Proof.
  induction l as [|x l IH]; simpl; [constructor|].
  destruct (f x); [by apply sublist_skip | by apply sublist_cons].
Qed.

Lemma filter_bool_app (f : A -> bool) (l1 l2 : list A) :
  List.filter f (l1 ++ l2) = List.filter f l1 ++ List.filter f l2.
Proof. induction l1 as [|x l1 IH]; simpl; [done|]. destruct (f x); simpl; by rewrite IH. Qed.

Lemma filter_bool_all (f : A -> bool) (l : list A) :
  (forall x, In x l -> f x = true) -> List.filter f l = l.
Proof.
  induction l as [|x l IH]; intros Hall; simpl; [done|].
  rewrite (Hall x (or_introl eq_refl)), IH; [done|]. intros y Hy. apply Hall. by right.
Qed.

(** A fold that only appends to its accumulator is the accumulator
    followed by the fold started empty. *)
Lemma fold_left_app_acc {B} (g : B -> list A) (bs : list B) (acc : list A) :
  fold_left (fun a b => a ++ g b) bs acc = acc ++ fold_left (fun a b => a ++ g b) bs [].
Proof.
  revert acc. induction bs as [|b bs IH]; intros acc; simpl; [by rewrite app_nil_r|].
  rewrite (IH (acc ++ g b)), (IH (g b)). by rewrite app_assoc.
Qed.
End ListFacts.

#[export] Hint Resolve filter_bool_sublist : cmf.
#[export] Hint Rewrite @filter_bool_app : cmf_rw.

(** ** A state monad for the event handlers *)

(** The handlers of search.js run DOM updates one after another; they are
    written as computations in this monad over the application state. *)
Definition St (S A : Type) : Type := S -> A * S.

Definition st_ret {S A} (a : A) : St S A := fun s => (a, s).

Definition st_bind {S A B} (m : St S A) (k : A -> St S B) : St S B :=
  fun s => let '(a, s') := m s in k a s'.

Definition st_get {S} : St S S := fun s => (s, s).

Definition st_modify {S} (f : S -> S) : St S unit := fun s => (tt, f s).

(** The state after running a computation. *)
Definition st_exec {S A} (m : St S A) (s : S) : S := snd (m s).

Notation "x <- m ;; k" := (st_bind m (fun x => k))
  (at level 100, m at next level, right associativity) : cmf_scope.
Notation "m ;; k" := (st_bind m (fun _ => k))
  (at level 100, right associativity) : cmf_scope.

(** [list.forEach(f)] *)
Fixpoint st_forEach {S A} (f : A -> St S unit) (l : list A) : St S unit :=
  match l with
  | [] => st_ret tt
  | x :: r => st_bind (f x) (fun _ => st_forEach f r)
  end.

Lemma st_exec_bind {S A B} (m : St S A) (k : A -> St S B) s :
  st_exec (st_bind m k) s = st_exec (k (fst (m s))) (snd (m s)).
Proof. unfold st_exec, st_bind. by destruct (m s). Qed.

Lemma st_exec_modify {S} (f : S -> S) s : st_exec (st_modify f) s = f s.
Proof. reflexivity. Qed.

#[export] Hint Rewrite @st_exec_bind @st_exec_modify : cmf_rw.

(** ** The [for] statement *)

(** How an iteration of a loop body ends: at [continue] or at the end of
    the body, with the new state, or at [break]. *)
Inductive flow (St0 : Type) : Type :=
| Continue (s : St0)
| Break (s : St0).
Arguments Continue {St0} s.
Arguments Break {St0} s.

(** [for (let i = i0; i < hi; i++) body], running at most [fuel]
    iterations: [None] when the fuel runs out before the loop ends. *)
Fixpoint for_loop {St0} (fuel i hi : nat) (body : nat -> St0 -> flow St0) (s : St0) : option St0 :=
  if Nat.ltb i hi then
    match fuel with
    | 0 => None
    | S f =>
        match body i s with
        | Continue s' => for_loop f (S i) hi body s'
        | Break s' => Some s'
        end
    end
  else Some s.

Section ForLoop.
Context {St0 : Type} (hi : nat) (body : nat -> St0 -> flow St0).

Lemma for_loop_done fuel i s : hi <= i -> for_loop fuel i hi body s = Some s.
Proof. intros H. destruct fuel; simpl; by rewrite (proj2 (Nat.ltb_ge i hi) H). Qed.

Lemma for_loop_step fuel i s :
  i < hi ->
  for_loop (S fuel) i hi body s =
    match body i s with Continue s' => for_loop fuel (S i) hi body s' | Break s' => Some s' end.
Proof. intros H. simpl. by rewrite (proj2 (Nat.ltb_lt i hi) H). Qed.

(** Fuel for the iterations left is enough, and more changes nothing. *)
Lemma for_loop_fuel fuel i s : hi - i <= fuel -> for_loop fuel i hi body s = for_loop (hi - i) i hi body s.
Proof.
  revert i s. induction fuel as [|f IH]; intros i s Hf.
  - by replace (hi - i) with 0 by lia.
  - destruct (Nat.lt_ge_cases i hi) as [Hi|Hi]; [|by rewrite !for_loop_done].
    replace (hi - i) with (S (hi - S i)) by lia. rewrite !for_loop_step by done.
    destruct (body i s); [|done]. apply IH. lia.
Qed.

Lemma for_loop_total fuel i s : hi - i <= fuel -> exists s', for_loop fuel i hi body s = Some s'.
Proof.
  revert i s. induction fuel as [|f IH]; intros i s Hf.
  - exists s. apply for_loop_done. lia.
  - destruct (Nat.lt_ge_cases i hi) as [Hi|Hi]; [|exists s; by apply for_loop_done].
    rewrite for_loop_step by done. destruct (body i s); [apply IH; lia|eauto].
Qed.

(** A body that never breaks is a fold over the indices. *)
Lemma for_loop_fold (step : St0 -> nat -> St0) fuel i s :
  (forall j s, body j s = Continue (step s j)) -> hi - i <= fuel ->
  for_loop fuel i hi body s = Some (fold_left step (seq i (hi - i)) s).
Proof.
  intros Hb. revert i s. induction fuel as [|f IH]; intros i s Hf.
  - replace (hi - i) with 0 by lia. apply for_loop_done. lia.
  - destruct (Nat.lt_ge_cases i hi) as [Hi|Hi].
    + rewrite for_loop_step, Hb by done. replace (hi - i) with (S (hi - S i)) by lia.
      simpl. apply IH. lia.
    + replace (hi - i) with 0 by lia. by apply for_loop_done.
Qed.
End ForLoop.

(** An index loop reading [l[j]] for [j] from [i] to the end is the fold
    over the suffix from [i]. *)
Lemma fold_left_seq_lookup {A B} (f : B -> A -> B) (d : A) (l : list A) i b :
  fold_left (fun b j => f b (default d (l !! j))) (seq i (length l - i)) b = fold_left f (drop i l) b.
Proof.
  remember (length l - i) as n eqn:Hn. revert i b Hn. induction n as [|n IH]; intros i b Hn.
  - by rewrite drop_ge by lia.
  - destruct (lookup_lt_is_Some_2 l i) as [x Hx]; [lia|].
    rewrite (drop_S l x i Hx). simpl. rewrite Hx. apply IH. lia.
Qed.

(** A property kept by every step of a fold holds of its result. *)
Lemma fold_left_invariant {A B} (P : B -> Prop) (f : B -> A -> B) (l : list A) (b : B) :
  (forall b x, P b -> P (f b x)) -> P b -> P (fold_left f l b).
Proof. intros Hf. revert b. induction l as [|x l IH]; intros b Hb; simpl; auto. Qed.
