(* ===== verification/JsString.v ===== *)
(** * JsString: the ECMAScript string built-ins called by the program

    [String.prototype.trim], [toUpperCase], [toLowerCase], [includes],
    [startsWith], [endsWith], [split] with a one-character separator,
    [Array.prototype.join] on strings, and the three [replace] calls of
    the sources: white-space runs, every double quote, and a leading and
    a final double quote, each replaced by nothing.  Text is 7-bit ASCII (see the header of [Prelude]). *)

From Stdlib Require Import Ascii String.
From stdpp Require Import base list strings.
From Stdlib Require Import Lia.
From S2P Require Import Prelude.

Local Open Scope string_scope.

(** ** Character classes *)

(** WhiteSpace and LineTerminator below 128 (TAB, LF, VT, FF, CR, SPACE):
    what [trim] removes and what [\s] matches. *)
Definition is_ws (c : ascii) : bool :=
  match nat_of_ascii c with
  | 9 | 10 | 11 | 12 | 13 | 32 => true
  | _ => false
  end.

Definition is_upper (c : ascii) : bool :=
  Nat.leb 65 (nat_of_ascii c) && Nat.leb (nat_of_ascii c) 90.

Definition is_lower (c : ascii) : bool :=
  Nat.leb 97 (nat_of_ascii c) && Nat.leb (nat_of_ascii c) 122.

Definition is_digit (c : ascii) : bool :=
  Nat.leb 48 (nat_of_ascii c) && Nat.leb (nat_of_ascii c) 57.

Definition dquote : ascii := ascii_of_nat 34.

Definition char_upper (c : ascii) : ascii :=
  if is_lower c then ascii_of_nat (nat_of_ascii c - 32) else c.

Definition char_lower (c : ascii) : ascii :=
  if is_upper c then ascii_of_nat (nat_of_ascii c + 32) else c.

(** ** The built-ins *)

(** [s.toUpperCase()] *)
Fixpoint toUpperCase (s : string) : string :=
  match s with
  | EmptyString => EmptyString
  | String c r => String (char_upper c) (toUpperCase r)
  end.

(** [s.toLowerCase()] *)
Fixpoint toLowerCase (s : string) : string :=
  match s with
  | EmptyString => EmptyString
  | String c r => String (char_lower c) (toLowerCase r)
  end.

(** [s.trimStart()] *)
Fixpoint trimStart (s : string) : string :=
  match s with
  | EmptyString => EmptyString
  | String c r => if is_ws c then trimStart r else s
  end.

(** [s.trimEnd()] *)
Fixpoint trimEnd (s : string) : string :=
  match s with
  | EmptyString => EmptyString
  | String c r =>
      match trimEnd r with
      | EmptyString => if is_ws c then EmptyString else String c EmptyString
      | r' => String c r'
      end
  end.

(** [s.trim()]: TrimString(s, start+end). *)
Definition trim (s : string) : string := trimEnd (trimStart s).

(** [s.replace(/\s+/g, '')]: every maximal run of white space is replaced
    by nothing, so every white-space character goes. *)
Fixpoint strip_ws (s : string) : string :=
  match s with
  | EmptyString => EmptyString
  | String c r => if is_ws c then strip_ws r else String c (strip_ws r)
  end.

(** [s.replace(/Q/g, '')] with Q the double quote (parse.js line 102). *)
Fixpoint remove_dquotes (s : string) : string :=
  match s with
  | EmptyString => EmptyString
  | String c r => if Ascii.eqb c dquote then remove_dquotes r else String c (remove_dquotes r)
  end.

(** The second alternative (Q followed by end of input) of [/^Q|Q$/g], Q
    the double quote: a quote that is the last character. *)
Fixpoint drop_final_dquote (s : string) : string :=
  match s with
  | EmptyString => EmptyString
  | String c EmptyString => if Ascii.eqb c dquote then EmptyString else s
  | String c r => String c (drop_final_dquote r)
  end.

(** [s.replace(/^Q|Q$/g, '')], Q the double quote (parse.js line 58): the
    matches do not overlap, so a leading quote is removed first and a
    final quote of the rest after it. *)
Definition strip_outer_dquotes (s : string) : string :=
  drop_final_dquote
    (match s with
     | String c r => if Ascii.eqb c dquote then r else s
     | EmptyString => EmptyString
     end).

(** [s.startsWith(w)] *)
Definition startsWith (s w : string) : bool := String.prefix w s.

(** [s.endsWith(w)]: [w] is one of the suffixes of [s]. *)
Fixpoint endsWith (s w : string) : bool :=
  String.eqb s w ||
  match s with
  | EmptyString => false
  | String _ r => endsWith r w
  end.

(** [s.includes(w)]: [w] starts at some index of [s]. *)
Fixpoint includes (s w : string) : bool :=
  String.prefix w s ||
  match s with
  | EmptyString => false
  | String _ r => includes r w
  end.

(** [s.split(sep)] for a one-character separator: never empty. *)
Fixpoint split (sep : ascii) (s : string) : list string :=
  match s with
  | EmptyString => [EmptyString]
  | String c r =>
      match split sep r with
      | [] => []
      | f :: fs => if Ascii.eqb c sep then EmptyString :: f :: fs else String c f :: fs
      end
  end.

(** [arr.join(sep)] on an array of strings. *)
Fixpoint join (sep : string) (l : list string) : string :=
  match l with
  | [] => EmptyString
  | [x] => x
  | x :: r => x ++ sep ++ join sep r
  end.

(** ** Concatenation *)

Lemma str_app_assoc (a b c : string) : a ++ b ++ c = (a ++ b) ++ c.
Proof. induction a as [|x a IH]; simpl; [done|]. by rewrite IH. Qed.

Lemma str_app_nil_r (a : string) : a ++ EmptyString = a.
Proof. induction a as [|x a IH]; simpl; [done|]. by rewrite IH. Qed.

Lemma str_app_eq_nil (a b : string) : a ++ b = EmptyString -> a = EmptyString /\ b = EmptyString.
Proof. destruct a; simpl; [done|discriminate]. Qed.

Lemma length_str_app (a b : string) : String.length (a ++ b) = String.length a + String.length b.
Proof. induction a as [|x a IH]; simpl; [done|]. by rewrite IH. Qed.

#[export] Hint Rewrite str_app_nil_r length_str_app : cmf_rw.

(** ** Character lemmas, by exhaustion over the 256 code units *)

Ltac ascii_cases c := destruct c as [[] [] [] [] [] [] [] []]; reflexivity.

Lemma is_ws_char_upper c : is_ws (char_upper c) = is_ws c.
Proof. ascii_cases c. Qed.

Lemma char_upper_idem c : char_upper (char_upper c) = char_upper c.
Proof. ascii_cases c. Qed.

Lemma is_upper_char_upper c : is_upper c = true -> char_upper c = c.
Proof. destruct c as [[] [] [] [] [] [] [] []]; done. Qed.

Lemma is_digit_char_upper c : is_digit c = true -> char_upper c = c.
Proof. destruct c as [[] [] [] [] [] [] [] []]; done. Qed.

Lemma is_ws_char_upper_id c : is_ws c = true -> char_upper c = c.
Proof. destruct c as [[] [] [] [] [] [] [] []]; done. Qed.

Lemma is_ws_not_upper c : is_ws c = true -> is_upper c = false.
Proof. destruct c as [[] [] [] [] [] [] [] []]; done. Qed.

Lemma is_ws_not_digit c : is_ws c = true -> is_digit c = false.
Proof. destruct c as [[] [] [] [] [] [] [] []]; done. Qed.

Lemma is_upper_not_digit c : is_upper c = true -> is_digit c = false.
Proof. destruct c as [[] [] [] [] [] [] [] []]; done. Qed.

(** ** Case mapping *)

Lemma toUpperCase_idem s : toUpperCase (toUpperCase s) = toUpperCase s.
Proof. induction s as [|c s IH]; simpl; [done|]. by rewrite char_upper_idem, IH. Qed.

Lemma toUpperCase_app s t : toUpperCase (s ++ t) = toUpperCase s ++ toUpperCase t.
Proof. induction s as [|c s IH]; simpl; [done|]. by rewrite IH. Qed.

Lemma length_toUpperCase s : String.length (toUpperCase s) = String.length s.
Proof. induction s as [|c s IH]; simpl; [done|]. by rewrite IH. Qed.

(** ** Trimming *)

Lemma trimStart_upper s : trimStart (toUpperCase s) = toUpperCase (trimStart s).
Proof.
  induction s as [|c s IH]; simpl; [done|].
  rewrite is_ws_char_upper. by destruct (is_ws c).
Qed.

Lemma trimEnd_upper s : trimEnd (toUpperCase s) = toUpperCase (trimEnd s).
Proof.
  induction s as [|c s IH]; simpl; [done|].
  rewrite IH, is_ws_char_upper.
  destruct (trimEnd s); simpl; [destruct (is_ws c)|]; done.
Qed.

Lemma trim_upper s : trim (toUpperCase s) = toUpperCase (trim s).
Proof. unfold trim. by rewrite trimStart_upper, trimEnd_upper. Qed.

Lemma trimStart_idem s : trimStart (trimStart s) = trimStart s.
Proof.
  induction s as [|c s IH]; simpl; [done|].
  destruct (is_ws c) eqn:E; [done|]. simpl. by rewrite E.
Qed.

(** The two halves of [trim] commute. *)
Lemma trimStart_trimEnd s : trimStart (trimEnd s) = trimEnd (trimStart s).
Proof.
  induction s as [|c s IH]; simpl; [done|].
  destruct (is_ws c) eqn:E.
  - destruct (trimEnd s) eqn:Es; simpl; [|by rewrite E].
    by rewrite <- IH.
  - simpl. destruct (trimEnd s); simpl; by rewrite E.
Qed.

Lemma trimEnd_cons_nonempty c r a t :
  trimEnd r = String a t -> trimEnd (String c r) = String c (String a t).
Proof. intros H. simpl. by rewrite H. Qed.

Lemma trimEnd_idem s : trimEnd (trimEnd s) = trimEnd s.
Proof.
  induction s as [|c s IH]; simpl; [done|].
  destruct (trimEnd s) as [|c' s'] eqn:Es.
  - destruct (is_ws c) eqn:E; simpl; [done|]. by rewrite E.
  - by apply trimEnd_cons_nonempty.
Qed.

Lemma trim_idem s : trim (trim s) = trim s.
Proof.
  unfold trim. by rewrite trimStart_trimEnd, trimStart_idem, trimEnd_idem.
Qed.

(** ** Removing white space *)

Lemma strip_ws_trimStart s : strip_ws (trimStart s) = strip_ws s.
Proof.
  induction s as [|c s IH]; simpl; [done|].
  destruct (is_ws c) eqn:E; [done|]. simpl. by rewrite E.
Qed.


Lemma strip_ws_trimEnd s : strip_ws (trimEnd s) = strip_ws s.
Proof.
  induction s as [|c s IH]; simpl; [done|].
  rewrite <- IH. destruct (trimEnd s) eqn:Es.
  - by destruct (is_ws c) eqn:E; simpl; rewrite ?E.
  - done.
Qed.

Lemma strip_ws_trim s : strip_ws (trim s) = strip_ws s.
Proof. unfold trim. by rewrite strip_ws_trimEnd, strip_ws_trimStart. Qed.

Lemma strip_ws_upper s : strip_ws (toUpperCase s) = toUpperCase (strip_ws s).
Proof.
  induction s as [|c s IH]; simpl; [done|].
  rewrite is_ws_char_upper, IH. by destruct (is_ws c).
Qed.

#[export] Hint Rewrite toUpperCase_idem trim_idem trim_upper strip_ws_trim strip_ws_upper : cmf_rw.

(** ** Prefixes and substrings *)

Lemma prefix_cons c w d s :
  String.prefix (String c w) (String d s) = (Ascii.eqb c d && String.prefix w s)%bool.
Proof.
  simpl. case_match; subst.
  - by rewrite Ascii.eqb_refl.
  - by rewrite (proj2 (Ascii.eqb_neq c d) n).
Qed.

Lemma prefix_app_iff w s : String.prefix w s = true <-> exists b, s = w ++ b.
Proof.
  revert s. induction w as [|c w IH]; intros s.
  - split; intros; [by exists s | by destruct s].
  - destruct s as [|d s].
    + split; [discriminate|]. intros [b Hb]. discriminate.
    + rewrite prefix_cons, andb_true_iff, IH.
      split.
      * intros [Hcd%Ascii.eqb_eq [b ->]]. subst. by exists b.
      * intros [b Hb]. injection Hb as -> ->. rewrite Ascii.eqb_refl. eauto.
Qed.

Lemma startsWith_iff s w : startsWith s w = true <-> exists b, s = w ++ b.
Proof. apply prefix_app_iff. Qed.

Lemma includes_iff s w : includes s w = true <-> exists a b, s = a ++ w ++ b.
Proof.
  induction s as [|c s IH]; cbn [includes]; rewrite orb_true_iff, prefix_app_iff.
  - split.
    + intros [[b Hb]|]; [|done]. by exists EmptyString, b.
    + intros [a [b Hab]]. left. exists b. destruct a; [done|discriminate].
  - rewrite IH. split.
    + intros [[b Hb]|[a [b Hab]]].
      * by exists EmptyString, b.
      * exists (String c a), b. by rewrite Hab.
    + intros [[|d a] [b Hab]]; [left; by exists b|].
      right. injection Hab as -> ->. by exists a, b.
Qed.

Lemma includes_self w : includes w w = true.
Proof. apply includes_iff. exists EmptyString, EmptyString. by rewrite str_app_nil_r. Qed.

Lemma includes_app_l s t w : includes s w = true -> includes (s ++ t) w = true.
Proof.
  rewrite !includes_iff. intros (a & b & ->). exists a, (b ++ t). by rewrite <- !str_app_assoc.
Qed.

Lemma includes_app_r s t w : includes t w = true -> includes (s ++ t) w = true.
Proof.
  rewrite !includes_iff. intros (a & b & ->). exists (s ++ a), b. by rewrite <- !str_app_assoc.
Qed.

Lemma includes_String c t w : includes t w = true -> includes (String c t) w = true.
Proof. intros H. apply (includes_app_r (String c EmptyString)), H. Qed.

#[export] Hint Resolve includes_self includes_app_l includes_app_r includes_String : cmf.

(** ** Split and join *)

Fixpoint has_char (sep : ascii) (s : string) : bool :=
  match s with
  | EmptyString => false
  | String c r => Ascii.eqb c sep || has_char sep r
  end.

Lemma split_nonempty sep s : split sep s <> [].
Proof.
  induction s as [|c s IH]; [done|]. simpl.
  destruct (split sep s); [done|]. by destruct (Ascii.eqb c sep).
Qed.

(** Joining the fields of a split gives the string back. *)
Lemma join_split sep s : join (String sep EmptyString) (split sep s) = s.
Proof.
  induction s as [|c s IH]; [done|]. simpl.
  destruct (split sep s) as [|f fs] eqn:Es; [by apply split_nonempty in Es|].
  rewrite <- IH. destruct (Ascii.eqb c sep) eqn:Hc.
  - apply Ascii.eqb_eq in Hc as ->. by destruct fs.
  - by destruct fs.
Qed.

Lemma split_no_sep sep s : has_char sep s = false -> split sep s = [s].
Proof.
  induction s as [|c s IH]; [done|]. simpl. unfold has_char. simpl.
  rewrite orb_false_iff. intros [Hc Hs].
  rewrite (IH Hs), Hc. done.
Qed.


Lemma split_app_sep sep s t :
  has_char sep s = false -> split sep (s ++ String sep t) = s :: split sep t.
Proof.
  induction s as [|c s IH]; intros Hs; simpl.
  - destruct (split sep t) eqn:E; [by apply split_nonempty in E|].
    by rewrite (Ascii.eqb_refl sep).
  - unfold has_char in Hs. simpl in Hs. apply orb_false_iff in Hs as [Hc Hs].
    rewrite (IH Hs), Hc. done.
Qed.

(** Splitting a join of separator-free fields gives the fields back. *)
Lemma split_join sep (l : list string) :
  l <> [] -> Forall (fun f => has_char sep f = false) l ->
  split sep (join (String sep EmptyString) l) = l.
Proof.
  induction l as [|f l IH]; intros Hne Hall; [done|].
  inversion Hall as [|? ? Hf Hl]; subst.
  destruct l as [|g l]; [by apply split_no_sep|].
  change (join (String sep EmptyString) (f :: g :: l))
    with (f ++ String sep (join (String sep EmptyString) (g :: l))).
  rewrite split_app_sep by done. f_equal. by apply IH.
Qed.

(** ** More on case, suffixes and white space *)

Lemma char_lower_upper c : char_lower (char_upper c) = char_lower c.
Proof. ascii_cases c. Qed.

Lemma toLowerCase_upper s : toLowerCase (toUpperCase s) = toLowerCase s.
Proof. induction s as [|c s IH]; simpl; [done|]. by rewrite char_lower_upper, IH. Qed.

Lemma endsWith_iff s w : endsWith s w = true <-> exists a, s = a ++ w.
Proof.
  induction s as [|c s IH]; cbn [endsWith]; rewrite orb_true_iff, String.eqb_eq.
  - split; [intros [<-|]; [by exists EmptyString|done]|].
    intros [a Ha]. left. by destruct (str_app_eq_nil a w (eq_sym Ha)) as [_ ->].
  - rewrite IH. split.
    + intros [<-|[a ->]]; [by exists EmptyString|by exists (String c a)].
    + intros [[|d a] Ha]; [by left|]. injection Ha as -> ->. right. by exists a.
Qed.

Lemma has_char_app sep a b : has_char sep (a ++ b) = has_char sep a || has_char sep b.
Proof. induction a as [|c a IH]; simpl; [done|]. by rewrite IH, orb_assoc. Qed.

(** A join of fields and separators free of a character is free of it. *)
Lemma has_char_join c sep (l : list string) :
  has_char c sep = false -> Forall (fun f => has_char c f = false) l ->
  has_char c (join sep l) = false.
Proof.
  intros Hsep Hl. induction Hl as [|f l Hf Hl IH]; [done|].
  destruct l as [|g l]; [done|].
  change (join sep (f :: g :: l)) with (f ++ sep ++ join sep (g :: l)).
  by rewrite !has_char_app, Hf, Hsep, IH.
Qed.

(** Every character is white space. *)
Fixpoint all_ws (s : string) : bool :=
  match s with
  | EmptyString => true
  | String c r => is_ws c && all_ws r
  end.

Lemma all_ws_app a b : all_ws (a ++ b) = all_ws a && all_ws b.
Proof. induction a as [|c a IH]; simpl; [done|]. by rewrite IH, andb_assoc. Qed.

Lemma trimEnd_all_ws w : all_ws w = true -> trimEnd w = EmptyString.
Proof.
  induction w as [|c w IH]; simpl; [done|]. intros [Hc Hw]%andb_true_iff.
  by rewrite IH, Hc.
Qed.

Lemma trimStart_empty_iff s : trimStart s = EmptyString <-> all_ws s = true.
Proof.
  induction s as [|c s IH]; simpl; [done|].
  destruct (is_ws c); simpl; [done|]. split; discriminate.
Qed.

(** Trailing white space does not survive [trimEnd]. *)
Lemma trimEnd_app_ws s w : all_ws w = true -> trimEnd (s ++ w) = trimEnd s.
Proof.
  intros Hw. induction s as [|c s IH]; simpl; [by apply trimEnd_all_ws|]. by rewrite IH.
Qed.

Lemma trimStart_app s w : trimStart s <> EmptyString -> trimStart (s ++ w) = trimStart s ++ w.
Proof.
  induction s as [|c s IH]; simpl; [done|]. destruct (is_ws c); [exact IH|done].
Qed.

(** Appending white space (a CR before LF, trailing blanks) does not
    change the trimmed text. *)
Lemma trim_app_ws s w : all_ws w = true -> trim (s ++ w) = trim s.
Proof.
  intros Hw. unfold trim. destruct (trimStart s) eqn:Hs.
  - apply trimStart_empty_iff in Hs.
    assert (trimStart (s ++ w) = EmptyString) as ->; [|done].
    apply trimStart_empty_iff. by rewrite all_ws_app, Hs, Hw.
  - rewrite trimStart_app by (by rewrite Hs). rewrite Hs. by apply trimEnd_app_ws.
Qed.

(** ** Counting and keeping out a character *)

(** The number of occurrences of [c] in [s]. *)
Fixpoint count_char (c : ascii) (s : string) : nat :=
  match s with
  | EmptyString => 0
  | String d r => (if Ascii.eqb d c then 1 else 0) + count_char c r
  end.

Lemma strip_ws_app s t : strip_ws (s ++ t) = strip_ws s ++ strip_ws t.
Proof. induction s as [|c s IH]; simpl; [done|]. destruct (is_ws c); simpl; by rewrite IH. Qed.

(** [s.split(sep)] has one piece more than [s] has separators. *)
Lemma length_split sep s : length (split sep s) = S (count_char sep s).
Proof.
  induction s as [|c s IH]; [done|]. simpl.
  destruct (split sep s) as [|f fs] eqn:E; [by destruct (split_nonempty sep s)|].
  simpl in IH. destruct (Ascii.eqb c sep); simpl; lia.
Qed.

Lemma split_pieces sep s : Forall (fun p => has_char sep p = false) (split sep s).
Proof.
  induction s as [|c s IH]; [by repeat constructor|]. simpl.
  destruct (split sep s) as [|f fs]; [done|]. inversion IH as [|? ? Hf Hfs]; subst.
  destruct (Ascii.eqb c sep) eqn:Hc; repeat constructor; try done.
  simpl. by rewrite Hc, Hf.
Qed.

Section NoChar.
Context (c : ascii).

Lemma has_char_trimStart s : has_char c s = false -> has_char c (trimStart s) = false.
Proof.
  induction s as [|d s IH]; [done|]. simpl. intros H. apply orb_false_iff in H as [Hd H'].
  destruct (is_ws d); [auto|]. simpl. by rewrite Hd, H'.
Qed.

Lemma has_char_trimEnd s : has_char c s = false -> has_char c (trimEnd s) = false.
Proof.
  induction s as [|d s IH]; [done|]. simpl. intros [Hd H]%orb_false_iff.
  destruct (trimEnd s) eqn:E; [destruct (is_ws d); simpl; by rewrite ?Hd|].
  specialize (IH H). simpl. by rewrite Hd.
Qed.

Lemma has_char_trim s : has_char c s = false -> has_char c (trim s) = false.
Proof. intros H. by apply has_char_trimEnd, has_char_trimStart. Qed.

Lemma has_char_remove_dquotes s : has_char c s = false -> has_char c (remove_dquotes s) = false.
Proof.
  induction s as [|d s IH]; [done|]. simpl. intros [Hd H]%orb_false_iff.
  destruct (Ascii.eqb d dquote); simpl; rewrite ?Hd; auto.
Qed.

Lemma has_char_drop_final_dquote s : has_char c s = false -> has_char c (drop_final_dquote s) = false.
Proof.
  induction s as [|d s IH]; [done|]. intros H. simpl in H. apply orb_false_iff in H as [Hd H].
  destruct s as [|e s']; simpl.
  - destruct (Ascii.eqb d dquote); simpl; by rewrite ?Hd.
  - rewrite Hd. by apply IH.
Qed.

Lemma has_char_strip_outer_dquotes s : has_char c s = false -> has_char c (strip_outer_dquotes s) = false.
Proof.
  intros H. unfold strip_outer_dquotes. apply has_char_drop_final_dquote.
  destruct s as [|d s]; [done|]. simpl in H. apply orb_false_iff in H as [Hd H].
  destruct (Ascii.eqb d dquote); [done|]. simpl. by rewrite Hd.
Qed.
End NoChar.
