(* ===== verification/JsValue.v ===== *)
(** * JsValue: the JavaScript values a spreadsheet cell can hold

    SheetJS's [sheet_to_json(ws, {header: 1, defval: ''})] yields rows whose
    cells are strings, numbers or booleans ('' for blank cells); a ragged
    row read past its end yields [undefined]; the CSV decoder yields only
    strings.  This file models those values, JavaScript truthiness, the
    idiom [String(row[k] || '')], [typeof x !== 'string'], indexing past
    the end of an array and [Array.prototype.join]. *)

From Stdlib Require Import Ascii String.
From stdpp Require Import base list strings.
From S2P Require Import Prelude JsString.

Local Open Scope string_scope.

(** A number is represented by its [ToString] text ("0.375", "NaN", ...):
    that text is what [String(x)] returns, and a number is falsy exactly
    when it is 0, -0 or NaN, whose texts are "0" and "NaN". *)
Inductive jsval :=
| JStr (s : string)
| JNum (repr : string)
| JBool (b : bool)
| JUndefined
| JNull.

(** ToBoolean *)
Definition truthy (v : jsval) : bool :=
  match v with
  | JStr s => negb (String.eqb s EmptyString)
  | JNum r => negb (String.eqb r "0" || String.eqb r "NaN")
  | JBool b => b
  | JUndefined | JNull => false
  end.

(** [v || d] *)
Definition js_or (v d : jsval) : jsval := if truthy v then v else d.

(** [String(v)] *)
Definition js_String (v : jsval) : string :=
  match v with
  | JStr s => s
  | JNum r => r
  | JBool true => "true"
  | JBool false => "false"
  | JUndefined => "undefined"
  | JNull => "null"
  end.

(** [typeof v === 'string'] *)
Definition is_string (v : jsval) : bool :=
  match v with JStr _ => true | _ => false end.

(** A row is a JavaScript array of cells; a hole reads as [undefined]. *)
Abbreviation row := (list jsval).

(** The raw grid: an entry is [None] where [rawData[i]] is undefined or
    null (a hole of a sparse array), [Some r] for an array. *)
Abbreviation grid := (list (option row)).

(** [row[k]]: [undefined] past the end. *)
Definition cell_at (r : row) (k : nat) : jsval := default JUndefined (r !! k).

(** [String(row[k] || '').trim()], the way every field is read. *)
Definition cell_text (r : row) (k : nat) : string :=
  trim (js_String (js_or (cell_at r k) (JStr EmptyString))).

(** The element conversion of [Array.prototype.join]: undefined and null
    become the empty string, everything else goes through ToString. *)
Definition join_elem (v : jsval) : string :=
  match v with
  | JUndefined | JNull => EmptyString
  | _ => js_String v
  end.

(** [arr.join(sep)] on an array of cells. *)
Definition join_row (sep : string) (r : row) : string := join sep (map join_elem r).

(** ** Lemmas *)

(** A string cell is read as its trimmed text, blank or not. *)
Lemma cell_text_str r k s : cell_at r k = JStr s -> cell_text r k = trim s.
Proof.
  unfold cell_text. intros ->. unfold js_or, truthy.
  destruct (String.eqb_spec s EmptyString) as [->|]; done.
Qed.

(** Past the end of the row every field reads as the empty string. *)
Lemma cell_text_past_end r k : length r <= k -> cell_text r k = EmptyString.
Proof.
  intros H. unfold cell_text, cell_at. by rewrite (lookup_ge_None_2 r k H).
Qed.

Lemma cell_at_app_r (r : row) k v rest : length r = k -> cell_at (r ++ v :: rest) k = v.
Proof. intros <-. unfold cell_at. by rewrite lookup_app_r, Nat.sub_diag. Qed.

#[export] Hint Resolve cell_text_str cell_text_past_end : cmf.
