(* ===== verification/Regex.v ===== *)
(** * Regex: the fragment of ECMAScript regular expressions used by parse.js

    [extractExamData] tests two patterns with [RegExp.prototype.test] (a
    [String.prototype.match] used as a boolean is the same test):
    the anchored course-code pattern [/^[A-Z]{2,4}\s*\d{3}/] (line 109) and
    the unanchored, case-insensitive date vocabulary
    [/(MONDAY|...|NOVEMBER)/i] (line 101).  This file gives the fragment
    they are written in (character classes, sequence, alternation, greedy
    star and bounded repetition of a class), the backtracking matcher in
    continuation-passing style that ECMAScript specifies (a matcher takes
    the input and a continuation and tries the alternatives in order),
    the language of a pattern as an inductive relation, and the theorem
    that the matcher decides the language. *)

From Stdlib Require Import Ascii String.
From stdpp Require Import base list strings.
From Stdlib Require Import Lia.
From S2P Require Import Prelude JsString.

Local Open Scope string_scope.

(** ** Syntax *)

Inductive regex :=
| REps                                  (** the empty pattern *)
| RClass (p : ascii -> bool)            (** one character: a class or a literal *)
| RSeq (r1 r2 : regex)                  (** r1 r2 *)
| RAlt (r1 r2 : regex)                  (** r1 | r2 *)
| RStar (p : ascii -> bool)             (** [p]* (greedy) *)
| RRep (p : ascii -> bool) (lo hi : nat). (** [p]{lo,hi} (greedy) *)

(** All the characters of [s] are in the class [p]. *)
Fixpoint all_class (p : ascii -> bool) (s : string) : bool :=
  match s with
  | EmptyString => true
  | String c r => p c && all_class p r
  end.

(** ** The backtracking matcher *)

(** [[p]*] followed by the continuation: take one more character first,
    give it back when the rest fails. *)
Fixpoint star_m (p : ascii -> bool) (s : string) (k : string -> bool) : bool :=
  match s with
  | EmptyString => k s
  | String c r => (p c && star_m p r k) || k s
  end.

(** [[p]{lo,hi}] followed by the continuation, greedily. *)
Fixpoint rep_m (p : ascii -> bool) (lo hi : nat) (s : string) (k : string -> bool) : bool :=
  match hi with
  | 0 => Nat.eqb lo 0 && k s
  | S hi' =>
      match s with
      | String c r => p c && rep_m p (Nat.pred lo) hi' r k
      | EmptyString => false
      end
      || (Nat.eqb lo 0 && k s)
  end.

Fixpoint rmatch (r : regex) (s : string) (k : string -> bool) : bool :=
  match r with
  | REps => k s
  | RClass p => match s with String c t => p c && k t | EmptyString => false end
  | RSeq r1 r2 => rmatch r1 s (fun t => rmatch r2 t k)
  | RAlt r1 r2 => rmatch r1 s k || rmatch r2 s k
  | RStar p => star_m p s k
  | RRep p lo hi => rep_m p lo hi s k
  end.

(** [/^R/.test(s)]: a match that starts at index 0. *)
Definition test_anchored (r : regex) (s : string) : bool := rmatch r s (fun _ => true).

(** [/R/.test(s)]: a match that starts at some index (lastIndex 0, no
    global flag). *)
Fixpoint test_search (r : regex) (s : string) : bool :=
  rmatch r s (fun _ => true) ||
  match s with
  | EmptyString => false
  | String _ t => test_search r t
  end.

(** ** Building patterns *)

(** A literal character under the [i] flag: both sides canonicalised by
    upper-casing. *)
Definition ci_char (c : ascii) : ascii -> bool :=
  fun d => Ascii.eqb (char_upper d) (char_upper c).

(** A literal word under the [i] flag. *)
Fixpoint lit_ci (w : string) : regex :=
  match w with
  | EmptyString => REps
  | String c r => RSeq (RClass (ci_char c)) (lit_ci r)
  end.

(** [r1|r2|...|rn] *)
Fixpoint alts (rs : list regex) : regex :=
  match rs with
  | [] => RClass (fun _ => false)
  | [r] => r
  | r :: rs' => RAlt r (alts rs')
  end.

(** ** Language *)

Inductive lang : regex -> string -> Prop :=
| L_eps : lang REps EmptyString
| L_class p c : p c = true -> lang (RClass p) (String c EmptyString)
| L_seq r1 r2 s1 s2 : lang r1 s1 -> lang r2 s2 -> lang (RSeq r1 r2) (s1 ++ s2)
| L_alt_l r1 r2 s : lang r1 s -> lang (RAlt r1 r2) s
| L_alt_r r1 r2 s : lang r2 s -> lang (RAlt r1 r2) s
| L_star p s : all_class p s = true -> lang (RStar p) s
| L_rep p lo hi s :
    all_class p s = true -> lo <= String.length s <= hi -> lang (RRep p lo hi) s.

#[export] Hint Constructors lang : cmf.

(** ** Inversion of the language *)

Lemma lang_eps_iff s : lang REps s <-> s = EmptyString.
Proof. split; [by inversion 1 | intros ->; constructor]. Qed.

Lemma lang_class_iff p s : lang (RClass p) s <-> exists c, s = String c EmptyString /\ p c = true.
Proof. split; [inversion 1; eauto | intros (c & -> & Hc); by constructor]. Qed.

Lemma lang_seq_iff r1 r2 s :
  lang (RSeq r1 r2) s <-> exists s1 s2, s = s1 ++ s2 /\ lang r1 s1 /\ lang r2 s2.
Proof. split; [inversion 1; subst; eauto | intros (s1 & s2 & -> & H1 & H2); by constructor]. Qed.

Lemma lang_alt_iff r1 r2 s : lang (RAlt r1 r2) s <-> lang r1 s \/ lang r2 s.
Proof. split; [inversion 1; auto | intros [H|H]; eauto with cmf]. Qed.

Lemma lang_star_iff p s : lang (RStar p) s <-> all_class p s = true.
Proof. split; [by inversion 1 | by constructor]. Qed.

Lemma lang_rep_iff p lo hi s :
  lang (RRep p lo hi) s <-> all_class p s = true /\ lo <= String.length s <= hi.
Proof. split; [inversion 1; auto | intros [? ?]; by constructor]. Qed.

(** ** The matcher decides the language *)

(** "[s] splits into a part in [P] and a rest the continuation accepts":
    the meaning of a matcher followed by a continuation. *)
Definition then_k (P : string -> Prop) (k : string -> bool) (s : string) : Prop :=
  exists s1 s2, s = s1 ++ s2 /\ P s1 /\ k s2 = true.

Lemma then_k_nil (P : string -> Prop) k s :
  P EmptyString -> k s = true -> then_k P k s.
Proof. intros. by exists EmptyString, s. Qed.

Lemma then_k_cons (P Q : string -> Prop) k c s :
  (forall s1, Q s1 -> P (String c s1)) -> then_k Q k s -> then_k P k (String c s).
Proof. intros HPQ (s1 & s2 & -> & HQ & Hk). exists (String c s1), s2. eauto. Qed.

Lemma star_m_correct p s k :
  star_m p s k = true <-> then_k (fun w => all_class p w = true) k s.
Proof.
  induction s as [|c s IH]; simpl.
  - split; [by apply then_k_nil|].
    intros (s1 & s2 & Hs & _ & Hk). by apply eq_sym, str_app_eq_nil in Hs as [-> ->].
  - rewrite orb_true_iff, andb_true_iff, IH. split.
    + intros [[Hc Hk]|Hk]; [|by apply then_k_nil].
      eapply then_k_cons; [|exact Hk]. simpl. intros ? ->. by rewrite Hc.
    + intros ([|d s1] & s2 & Hs & Hp & Hk); simpl in *; [by subst; right|].
      injection Hs as -> ->. apply andb_true_iff in Hp as [Hc Hp].
      left. split; [done|]. by exists s1, s2.
Qed.

Lemma rep_m_correct p lo hi s k :
  rep_m p lo hi s k = true <->
  then_k (fun w => all_class p w = true /\ lo <= String.length w <= hi) k s.
Proof.
  revert lo s. induction hi as [|hi IH]; intros lo s; simpl.
  - rewrite andb_true_iff, Nat.eqb_eq. split.
    + intros [-> Hk]. apply then_k_nil; [simpl; lia | done].
    + intros ([|d s1] & s2 & -> & [_ Hlen] & Hk); simpl in *; [split; [lia|done]|lia].
  - rewrite orb_true_iff, andb_true_iff, Nat.eqb_eq. split.
    + intros [Hm|[-> Hk]]; [|apply then_k_nil; [simpl; lia | done]].
      destruct s as [|c s]; [done|]. apply andb_true_iff in Hm as [Hc Hm].
      apply IH in Hm. eapply then_k_cons; [|exact Hm].
      simpl. intros w [Hw Hlen]. rewrite Hc, Hw. split; [done|lia].
    + intros ([|d s1] & s2 & -> & [Hp Hlen] & Hk); simpl in *; [right; split; [lia|done]|].
      left. apply andb_true_iff in Hp as [Hc Hp]. rewrite Hc. simpl.
      apply IH. exists s1, s2. split_and!; try done; lia.
Qed.

(** The matcher followed by [k] accepts [s] exactly when a prefix of [s]
    is in the language and [k] accepts the rest. *)
Theorem rmatch_correct r s k : rmatch r s k = true <-> then_k (lang r) k s.
Proof.
  revert s k. induction r as [|p|r1 IH1 r2 IH2|r1 IH1 r2 IH2|p|p lo hi]; intros s k; simpl.
  - split; [intros; apply then_k_nil; [constructor|done]|].
    intros (s1 & s2 & -> & H%lang_eps_iff & Hk). by subst.
  - destruct s as [|c t].
    + split; [done|]. intros (s1 & s2 & Hs & (c & -> & _)%lang_class_iff & _). discriminate.
    + rewrite andb_true_iff. split.
      * intros [Hc Hk]. exists (String c EmptyString), t. eauto with cmf.
      * intros (s1 & s2 & Hs & (d & -> & Hd)%lang_class_iff & Hk).
        injection Hs as -> ->. auto.
  - rewrite IH1. split.
    + intros (s1 & s' & -> & H1 & (s2 & s3 & -> & H2 & Hk)%IH2).
      exists (s1 ++ s2), s3. rewrite str_app_assoc. eauto with cmf.
    + intros (s12 & s3 & -> & (s1 & s2 & -> & H1 & H2)%lang_seq_iff & Hk).
      exists s1, (s2 ++ s3). rewrite <- str_app_assoc. split_and!; [done|done|].
      apply IH2. by exists s2, s3.
  - rewrite orb_true_iff, IH1, IH2. split.
    + intros [(s1 & s2 & ? & ? & ?)|(s1 & s2 & ? & ? & ?)]; exists s1, s2; eauto with cmf.
    + intros (s1 & s2 & -> & [H|H]%lang_alt_iff & Hk); [left|right]; by exists s1, s2.
  - rewrite star_m_correct. split; intros (s1 & s2 & ? & H & ?); exists s1, s2;
      rewrite ?lang_star_iff in *; auto.
  - rewrite rep_m_correct. split; intros (s1 & s2 & ? & H & ?); exists s1, s2;
      rewrite ?lang_rep_iff in *; auto.
Qed.

Corollary test_anchored_iff r s :
  test_anchored r s = true <-> exists s1 s2, s = s1 ++ s2 /\ lang r s1.
Proof.
  unfold test_anchored. rewrite rmatch_correct.
  split; [intros (s1 & s2 & ? & ? & _) | intros (s1 & s2 & ? & ?)]; by exists s1, s2.
Qed.

Corollary test_search_iff r s :
  test_search r s = true <-> exists a b c, s = a ++ b ++ c /\ lang r b.
Proof.
  induction s as [|x s IH]; cbn [test_search]; rewrite orb_true_iff, rmatch_correct.
  - split.
    + intros [(b & c & -> & Hb & _)|]; [|done]. by exists EmptyString, b, c.
    + intros ([|] & b & c & Hs & Hb); [|discriminate]. left. by exists b, c.
  - rewrite IH. split.
    + intros [(b & c & -> & Hb & _)|(a & b & c & -> & Hb)].
      * by exists EmptyString, b, c.
      * by exists (String x a), b, c.
    + intros ([|y a] & b & c & Hs & Hb); [left; by exists b, c|].
      injection Hs as -> ->. right. by exists a, b, c.
Qed.

(** ** Literals and alternations *)

Lemma toUpperCase_app_inv s x y :
  toUpperCase s = x ++ y ->
  exists s1 s2, s = s1 ++ s2 /\ toUpperCase s1 = x /\ toUpperCase s2 = y.
Proof.
  revert s. induction x as [|c x IH]; intros s Hs.
  - by exists EmptyString, s.
  - destruct s as [|d s]; [discriminate|]. simpl in Hs. injection Hs as Hc Hs.
    destruct (IH s Hs) as (s1 & s2 & -> & H1 & H2).
    exists (String d s1), s2. simpl. by rewrite Hc, H1.
Qed.

(** Under the [i] flag a word matches exactly the texts that upper-case
    to its upper-case form. *)
Lemma lang_lit_ci w b : lang (lit_ci w) b <-> toUpperCase b = toUpperCase w.
Proof.
  revert b. induction w as [|c w IH]; intros b; simpl.
  - rewrite lang_eps_iff. split; [by intros ->|]. by destruct b.
  - rewrite lang_seq_iff. split.
    + intros (s1 & s2 & -> & (d & -> & Hd)%lang_class_iff & H2%IH). simpl.
      apply Ascii.eqb_eq in Hd. by rewrite Hd, H2.
    + destruct b as [|d b]; [discriminate|]. simpl. intros Hb. injection Hb as Hd Hb.
      exists (String d EmptyString), b. split_and!; [done| |by apply IH].
      apply lang_class_iff. exists d. split; [done|]. by apply Ascii.eqb_eq.
Qed.

Lemma lang_alts rs b : lang (alts rs) b <-> exists r, In r rs /\ lang r b.
Proof.
  induction rs as [|r rs IH]; simpl.
  - rewrite lang_class_iff. split; [by intros (? & _ & ?)|]. by intros (? & [] & _).
  - destruct rs as [|r' rs'].
    + split; [intros; exists r; auto|]. by intros (r0 & [->|[]] & ?).
    + rewrite lang_alt_iff, IH. split.
      * intros [H|(r0 & Hin & H)]; [exists r|exists r0]; auto.
      * intros (r0 & [->|Hin] & H); [by left|]. right. by exists r0.
Qed.

(** ** The two patterns of [extractExamData] *)

(** [/^[A-Z]{2,4}\s*\d{3}/] (parse.js line 109). *)
Definition courseCodePattern : regex :=
  RSeq (RRep is_upper 2 4) (RSeq (RStar is_ws) (RRep is_digit 3 3)).

(** The alternatives of the date pattern, in the order of the source. *)
Definition date_words : list string :=
  ["MONDAY"; "TUESDAY"; "WEDNESDAY"; "THURSDAY"; "FRIDAY"; "SATURDAY"; "SUNDAY";
   "DECEMBER"; "JANUARY"; "FEBRUARY"; "MARCH"; "APRIL"; "MAY"; "JUNE"; "JULY";
   "AUGUST"; "SEPTEMBER"; "OCTOBER"; "NOVEMBER"].

(** [/(MONDAY|...|NOVEMBER)/i] (parse.js line 101). *)
Definition datePattern : regex := alts (map lit_ci date_words).

(** [courseCodePattern.test(s)] *)
Definition course_code_test (s : string) : bool := test_anchored courseCodePattern s.

(** [s.match(datePattern)] used as a condition. *)
Definition date_test (s : string) : bool := test_search datePattern s.

(** ** What the two patterns accept *)

(** C14: the course-code test holds exactly when the text starts with two to
    four capital letters, optional white space and three digits; anything
    may follow (the pattern is not anchored at the end). *)
Theorem course_code_test_iff s :
  course_code_test s = true <->
  exists L W D rest, s = L ++ W ++ D ++ rest /\
    all_class is_upper L = true /\ 2 <= String.length L <= 4 /\
    all_class is_ws W = true /\
    all_class is_digit D = true /\ String.length D = 3.
Proof.
  unfold course_code_test. rewrite test_anchored_iff. split.
  - intros (s1 & rest & -> & (L & WD & -> & HL & HWD)%lang_seq_iff).
    apply lang_seq_iff in HWD as (W & D & -> & HW%lang_star_iff & HD%lang_rep_iff).
    apply lang_rep_iff in HL as [HL HLn]. destruct HD as [HD HDn].
    exists L, W, D, rest. rewrite <- !str_app_assoc. split_and!; auto; lia.
  - intros (L & W & D & rest & -> & HL & HLn & HW & HD & HDn).
    exists (L ++ W ++ D), rest. rewrite <- !str_app_assoc. split; [done|].
    apply lang_seq_iff. exists L, (W ++ D). split_and!; [done|by apply lang_rep_iff|].
    apply lang_seq_iff. exists W, D. split_and!; [done|by apply lang_star_iff|].
    apply lang_rep_iff. split; [done|lia].
Qed.

Lemma date_word_upper w : In w date_words -> toUpperCase w = w.
Proof. intros H. repeat destruct H as [<-|H]; done. Qed.

(** C15: the date test holds exactly when the upper-cased text contains one of
    the nineteen weekday and month names. *)
Theorem date_test_iff s :
  date_test s = true <-> exists w, In w date_words /\ includes (toUpperCase s) w = true.
Proof.
  unfold date_test, datePattern. rewrite test_search_iff. split.
  - intros (a & b & c & -> & (r & (w & <- & Hw)%in_map_iff & Hb)%lang_alts).
    apply lang_lit_ci in Hb. exists w. split; [done|].
    apply includes_iff. exists (toUpperCase a), (toUpperCase c).
    by rewrite !toUpperCase_app, Hb, (date_word_upper w Hw).
  - intros (w & Hw & (a' & c' & Hs)%includes_iff).
    apply toUpperCase_app_inv in Hs as (a & bc & -> & _ & Hbc).
    apply toUpperCase_app_inv in Hbc as (b & c & -> & Hb & _).
    exists a, b, c. split; [done|]. apply lang_alts. exists (lit_ci w).
    split; [by apply in_map|]. apply lang_lit_ci. rewrite Hb.
    by rewrite (date_word_upper w Hw).
Qed.
