(* ===== verification/Extract.v ===== *)
(** * Extract: [extractExamData] of src/js/parse.js

    The state of the loop (lines 72-74) is the record [ExtractState]:
    the entries pushed so far, [currentExamDate] and [currentExamTime].
    [extract_row] is the body of the row loop (lines 90-137) with its
    [continue]s as early returns; [extractExamData] runs the header scan
    of lines 77-84 and folds [extract_row] over the rows from [dataStart].
    The declarative specification [spec_extract] says which entry each
    row yields in terms of the rows above it, and [extract_refines_spec]
    proves the loop computes it. *)

From Stdlib Require Import Ascii String.
From stdpp Require Import base list strings.
From Stdlib Require Import Lia.
From S2P Require Import Prelude JsString JsValue Regex.

Local Open Scope string_scope.

(** ** Data *)

(** The object literal [courseData] of lines 125-134. *)
Record ExamEntry := mkEntry {
  examDate : string;
  time : string;
  courseCode : string;
  section : string;
  title : string;
  instructor : string;
  room : string;
  searchableCode : string
}.

(** [cleanString] (lines 9-12). *)
Definition cleanString (v : jsval) : string :=
  match v with
  | JStr s => toUpperCase (trim s)
  | _ => EmptyString
  end.

(** ** The header scan (lines 77-84) *)

(** [(rawData[i] || []).join(' ').toUpperCase()] *)
Definition row_text (e : option row) : string :=
  toUpperCase (join_row " " (default [] e)).

Definition is_header_row (e : option row) : bool :=
  includes (row_text e) "COURSE" || includes (row_text e) "TIME".

(** Rows [i], [i+1], ... are scanned while [budget] lasts; the first
    header at index [j] gives [j + 1], none gives 0. *)
Fixpoint scan_header (budget i : nat) (g : grid) : nat :=
  match budget, g with
  | 0, _ | _, [] => 0
  | S b, e :: g' => if is_header_row e then S i else scan_header b (S i) g'
  end.

(** [dataStart]: the loop runs for [i < Math.min(20, rawData.length)]. *)
Definition find_data_start (g : grid) : nat := scan_header 20 0 g.

(** ** The row loop (lines 89-138) *)

Record ExtractState := mkState {
  processedData : list ExamEntry;
  currentExamDate : string;
  currentExamTime : string
}.

Definition init_state : ExtractState := mkState [] EmptyString EmptyString.

(** [cleanString(row[0] || '')] *)
Definition firstCell (r : row) : string := cleanString (js_or (cell_at r 0) (JStr EmptyString)).

(** [courseCodePattern.test(cleanString(col1))] with
    [col1 = String(row[1] || '').trim()] *)
Definition is_course_row (r : row) : bool := course_code_test (cleanString (JStr (cell_text r 1))).

(** The entry built from a course row (lines 125-134). *)
Definition build_entry (date time_value : string) (r : row) : ExamEntry :=
  let col1 := cell_text r 1 in
  {| examDate := date;
     time := time_value;
     courseCode := col1;
     section := cell_text r 2;
     title := cell_text r 3;
     instructor := cell_text r 5;
     room := cell_text r 6;
     searchableCode := strip_ws (cleanString (JStr col1)) |}.

(** One iteration of the loop on [rawData[i]]. *)
Definition extract_row (st : ExtractState) (e : option row) : ExtractState :=
  match e with
  | None => st
  | Some r =>
      if Nat.ltb (length r) 2 then st
      else if date_test (firstCell r) then
        mkState (processedData st)
                (remove_dquotes (trim (js_String (cell_at r 0))))
                EmptyString
      else if is_course_row r then
        let timeValue := cell_text r 0 in
        if negb (String.eqb timeValue EmptyString) then
          mkState (processedData st ++ [build_entry (currentExamDate st) timeValue r])
                  (currentExamDate st) timeValue
        else
          mkState (processedData st ++ [build_entry (currentExamDate st) (currentExamTime st) r])
                  (currentExamDate st) (currentExamTime st)
      else st
  end.

Definition extract_rows (rows : grid) : ExtractState := fold_left extract_row rows init_state.

(** [extractExamData(rawData)] *)
Definition extractExamData (g : grid) : list ExamEntry :=
  processedData (extract_rows (drop (find_data_start g) g)).

(** ** Declarative specification *)

(** What a row is, by the tests of the loop in their order. *)
Inductive row_kind :=
| RowSkipped                 (** absent, or fewer than two cells *)
| RowDate (text : string)    (** a date header, with the date it sets *)
| RowCourse (r : row)        (** a course row *)
| RowNoise.                  (** anything else *)

Definition classify (e : option row) : row_kind :=
  match e with
  | None => RowSkipped
  | Some r =>
      if Nat.ltb (length r) 2 then RowSkipped
      else if date_test (firstCell r) then RowDate (remove_dquotes (trim (js_String (cell_at r 0))))
      else if is_course_row r then RowCourse r
      else RowNoise
  end.

(** In the specification, [above] lists the rows above the current one,
    nearest first. *)

(** The date of the nearest date header above, or the empty string. *)
Fixpoint date_above (above : grid) : string :=
  match above with
  | [] => EmptyString
  | e :: t => match classify e with RowDate d => d | _ => date_above t end
  end.

(** The nearest non-empty time of a course row above, not looking past
    the nearest date header. *)
Fixpoint time_above (above : grid) : string :=
  match above with
  | [] => EmptyString
  | e :: t =>
      match classify e with
      | RowDate _ => EmptyString
      | RowCourse r => if String.eqb (cell_text r 0) EmptyString then time_above t else cell_text r 0
      | _ => time_above t
      end
  end.

(** The entries a row yields below the rows [above]: one for a course
    row, whose time is its own cell 0 or, when that is blank, the time
    carried from above. *)
Definition entries_of (above : grid) (e : option row) : list ExamEntry :=
  match classify e with
  | RowCourse r =>
      let t := cell_text r 0 in
      [build_entry (date_above above) (if String.eqb t EmptyString then time_above above else t) r]
  | _ => []
  end.

Fixpoint spec_above (above : grid) : list ExamEntry :=
  match above with
  | [] => []
  | e :: t => spec_above t ++ entries_of t e
  end.

Definition spec_extract (rows : grid) : list ExamEntry := spec_above (rev rows).

(** The loop state the specification predicts after the rows [above]. *)
Definition abs_state (above : grid) : ExtractState :=
  mkState (spec_above above) (date_above above) (time_above above).

(** ** Refinement *)

Lemma extract_row_abs above e : extract_row (abs_state above) e = abs_state (e :: above).
Proof.
  unfold abs_state. cbn [spec_above date_above time_above]. unfold entries_of, classify.
  destruct e as [r|]; simpl; [|by rewrite app_nil_r].
  destruct (Nat.ltb (length r) 2); [by rewrite app_nil_r|].
  destruct (date_test (firstCell r)); [by rewrite app_nil_r|].
  destruct (is_course_row r); [|by rewrite app_nil_r].
  by destruct (String.eqb (cell_text r 0) EmptyString).
Qed.

Lemma fold_extract_row_abs rows above :
  fold_left extract_row rows (abs_state above) = abs_state (rev rows ++ above).
Proof.
  revert above. induction rows as [|e rows IH]; intros above; [done|].
  simpl. rewrite extract_row_abs, IH. by rewrite <- app_assoc.
Qed.

Lemma extract_rows_abs (rows : grid) : extract_rows rows = abs_state (rev rows).
Proof.
  unfold extract_rows. change init_state with (abs_state []).
  by rewrite fold_extract_row_abs, app_nil_r.
Qed.

(** ** Facts about the specification *)

Lemma classify_course r : classify (Some r) = RowCourse r <->
  2 <= length r /\ date_test (firstCell r) = false /\ is_course_row r = true.
Proof.
  unfold classify. destruct (Nat.ltb_spec (length r) 2);
    [split; [discriminate|lia]|].
  destruct (date_test (firstCell r)); [split; [discriminate|intros (_ & ? & _); discriminate]|].
  destruct (is_course_row r); [split; [done|auto]|split; [discriminate|intros (_ & _ & ?); discriminate]].
Qed.

Lemma entries_of_course above r :
  classify (Some r) = RowCourse r ->
  entries_of above (Some r) =
    [build_entry (date_above above)
       (if String.eqb (cell_text r 0) EmptyString then time_above above else cell_text r 0) r].
Proof. intros H. unfold entries_of. by rewrite H. Qed.

(** Every specified entry is built from a course row among the rows. *)
Lemma spec_above_origin above e :
  In e (spec_above above) ->
  exists r d t, In (Some r) above /\ classify (Some r) = RowCourse r /\ e = build_entry d t r.
Proof.
  induction above as [|x above IH]; simpl; [done|].
  rewrite in_app_iff. intros [H|H].
  - destruct (IH H) as (r & d & t & ? & ? & ?). exists r, d, t. auto.
  - unfold entries_of in H. destruct (classify x) as [| |r|] eqn:Hx; try done.
    destruct H as [<-|[]]. destruct x as [r'|]; [|discriminate].
    assert (r' = r) as ->.
    { revert Hx. unfold classify. repeat case_match; congruence. }
    exists r, (date_above above),
      (if String.eqb (cell_text r 0) EmptyString then time_above above else cell_text r 0).
    split_and!; [by left|done|done].
Qed.

Lemma length_spec_above above : length (spec_above above) <= length above.
Proof.
  induction above as [|x above IH]; simpl; [lia|].
  rewrite length_app. unfold entries_of. destruct (classify x); simpl; lia.
Qed.

Lemma build_entry_searchable d t r :
  searchableCode (build_entry d t r) = strip_ws (toUpperCase (courseCode (build_entry d t r))).
Proof. simpl. unfold cell_text. by rewrite trim_idem. Qed.

Lemma build_entry_course_code d t r :
  is_course_row r = true -> course_code_test (toUpperCase (courseCode (build_entry d t r))) = true.
Proof. unfold is_course_row. simpl. unfold cell_text. by rewrite trim_idem. Qed.

(** ** The header scan *)

Lemma scan_header_spec b i g :
  let n := scan_header b i g in
  (n = 0 /\ forall j e, j < b -> g !! j = Some e -> is_header_row e = false) \/
  (exists j e, n = S (i + j) /\ j < b /\ g !! j = Some e /\ is_header_row e = true /\
     forall j' e', j' < j -> g !! j' = Some e' -> is_header_row e' = false).
Proof.
  revert i g. induction b as [|b IH]; intros i g; simpl.
  - left. split; [done|lia].
  - destruct g as [|e g]; [left; split; [done|by intros ? ?]|].
    destruct (is_header_row e) eqn:He.
    + right. exists 0, e. split_and!; [lia|lia|done|done|lia].
    + destruct (IH (S i) g) as [[Hn Hall]|(j & e' & Hn & Hj & Hg & He' & Hbefore)].
      * left. split; [done|]. intros [|j] e'' Hj Hg; simpl in Hg; [congruence|].
        apply (Hall j); [lia|done].
      * right. exists (S j), e'. split_and!; [lia|lia|done|done|].
        intros [|j'] e'' Hj' Hg'; simpl in Hg'; [congruence|]. apply (Hbefore j'); [lia|done].
Qed.

(** The loop on a course row: the time of the row, or the carried time
    when cell 0 is blank. *)
Lemma extract_row_course st r :
  classify (Some r) = RowCourse r ->
  extract_row st (Some r) =
    let t := cell_text r 0 in
    if String.eqb t EmptyString then
      mkState (processedData st ++ [build_entry (currentExamDate st) (currentExamTime st) r])
              (currentExamDate st) (currentExamTime st)
    else
      mkState (processedData st ++ [build_entry (currentExamDate st) t r]) (currentExamDate st) t.
Proof.
  intros (Hlen & Hd & Hc)%classify_course. simpl.
  destruct (Nat.ltb_spec (length r) 2); [lia|]. rewrite Hd, Hc.
  by destruct (String.eqb (cell_text r 0) EmptyString).
Qed.

Lemma extract_row_date st r d :
  classify (Some r) = RowDate d -> extract_row st (Some r) = mkState (processedData st) d EmptyString.
Proof. unfold classify. simpl. repeat case_match; congruence. Qed.

Lemma in_extractExamData g e :
  In e (extractExamData g) -> In e (spec_above (rev (drop (find_data_start g) g))).
Proof. unfold extractExamData. by rewrite extract_rows_abs. Qed.

(** ** Where the dates of the entries come from *)

Lemma in_drop_in {A} (x : A) n (l : list A) : In x (drop n l) -> In x l.
Proof. intros H. rewrite <- (take_drop n l). apply in_or_app. by right. Qed.

Lemma date_above_prop (P : string -> Prop) above :
  P EmptyString -> (forall e d, In e above -> classify e = RowDate d -> P d) -> P (date_above above).
Proof.
  induction above as [|x above IH]; intros H0 Hd; simpl; [done|].
  destruct (classify x) eqn:Hx; try (apply IH; [done|]; intros e d He; apply Hd; by right).
  apply (Hd x); [by left|done].
Qed.

Lemma spec_above_dates (P : string -> Prop) above :
  P EmptyString -> (forall e d, In e above -> classify e = RowDate d -> P d) ->
  forall x, In x (spec_above above) -> P (examDate x).
Proof.
  induction above as [|y above IH]; intros H0 Hd x Hx; simpl in Hx; [done|].
  apply in_app_iff in Hx as [Hx|Hx].
  - apply IH; [done| |done]. intros e d He. apply Hd. by right.
  - unfold entries_of in Hx. destruct (classify y); try done.
    destruct Hx as [<-|[]]. simpl. apply date_above_prop; [done|].
    intros e d He. apply Hd. by right.
Qed.

(** Every entry's date satisfies [P] when the empty date and the date
    of every date header of the grid do. *)
Lemma extract_dates (P : string -> Prop) g :
  P EmptyString -> (forall r d, In (Some r) g -> classify (Some r) = RowDate d -> P d) ->
  forall e, In e (extractExamData g) -> P (examDate e).
Proof.
  intros H0 Hd e He%in_extractExamData. eapply spec_above_dates; [exact H0| |exact He].
  intros [r|] d Hr Hc; [|discriminate]. apply (Hd r d); [|done].
  by apply (in_drop_in _ (find_data_start g)), in_rev.
Qed.

(** ** Examples used by the witnesses *)

Definition row_9am_cs101 : row := [JStr "9:00 AM"; JStr "CS 101"; JStr "001"; JStr "Intro to CS"].
Definition row_blank_cs102 : row := [JStr EmptyString; JStr "CS 102"; JStr "002"; JStr "Data Structures"].
Definition row_monday : row := [JStr "MONDAY, JAN 5"; JStr EmptyString].

(** The grid of the end-to-end example of the specification (section 8). *)
Definition spec_example_grid : grid :=
  [Some [JStr "Header"; JStr "Time"; JStr "Course"; JStr "Section"; JStr "Title"];
   Some [JStr "MONDAY, JAN 5"];
   Some row_9am_cs101;
   Some row_blank_cs102].

(** ** Properties of [extractExamData] *)

(** C1: every extracted entry's [searchableCode] is its course code
    upper-cased with all white space removed. *)
Theorem extract_searchable_code g e :
  In e (extractExamData g) -> searchableCode e = strip_ws (toUpperCase (courseCode e)).
Proof.
  intros (r & d & t & _ & _ & ->)%in_extractExamData%spec_above_origin.
  apply build_entry_searchable.
Qed.

(** C2: every extracted entry comes from a row of the data region that
    has at least two cells, is not a date header (cell 0 names no weekday
    or month), and whose cell 1 passes the course-code pattern. *)
Theorem extract_entry_origin g e :
  In e (extractExamData g) ->
  exists r d t, In (Some r) (drop (find_data_start g) g) /\ 2 <= length r /\
    date_test (firstCell r) = false /\ is_course_row r = true /\ e = build_entry d t r.
Proof.
  intros (r & d & t & Hin & Hc & ->)%in_extractExamData%spec_above_origin.
  apply classify_course in Hc as (? & ? & ?). exists r, d, t.
  split_and!; [by apply in_rev| done..].
Qed.

(** C3: the loop computes the declarative specification: each course
    row of the data region yields one entry whose date is that of the
    nearest date header above and whose time is its own or the nearest
    non-blank time above within the same date block. *)
Theorem extractExamData_refines_spec g :
  extractExamData g = spec_extract (drop (find_data_start g) g).
Proof. unfold extractExamData, spec_extract. by rewrite extract_rows_abs. Qed.

(** C4: merged-cell carry-over: a course row with a time followed by a
    course row whose time cell is blank yields two entries with that
    time, both under the current date. *)
Theorem time_carried_over st r1 r2 :
  classify (Some r1) = RowCourse r1 -> classify (Some r2) = RowCourse r2 ->
  cell_text r1 0 <> EmptyString -> cell_text r2 0 = EmptyString ->
  processedData (fold_left extract_row [Some r1; Some r2] st) =
    (processedData st ++ [build_entry (currentExamDate st) (cell_text r1 0) r1;
                          build_entry (currentExamDate st) (cell_text r1 0) r2])%list.
Proof.
  intros H1 H2 Ht1 Ht2. cbn [fold_left].
  rewrite (extract_row_course st r1 H1). cbv zeta.
  apply String.eqb_neq in Ht1. rewrite Ht1.
  rewrite extract_row_course by done. cbv zeta. rewrite Ht2. simpl.
  by rewrite <- app_assoc.
Qed.

Lemma time_carried_over_witness :
  processedData (fold_left extract_row [Some row_9am_cs101; Some row_blank_cs102] init_state) =
    [build_entry EmptyString "9:00 AM" row_9am_cs101; build_entry EmptyString "9:00 AM" row_blank_cs102].
Proof.
  apply (time_carried_over init_state row_9am_cs101 row_blank_cs102);
    [vm_compute; reflexivity | vm_compute; reflexivity | vm_compute; discriminate | vm_compute; reflexivity].
Defined.

(** C5: a date header sets the date and resets the carried time: a
    course row with a blank time right after it gets the header's date
    and an empty time, whatever time was current before. *)
Theorem date_header_resets_time st r0 d r :
  classify (Some r0) = RowDate d -> classify (Some r) = RowCourse r ->
  cell_text r 0 = EmptyString ->
  processedData (fold_left extract_row [Some r0; Some r] st) =
    (processedData st ++ [build_entry d EmptyString r])%list.
Proof.
  intros H0 H Ht. cbn [fold_left]. rewrite (extract_row_date st r0 d H0).
  rewrite extract_row_course by done. cbv zeta. by rewrite Ht.
Qed.

Lemma date_header_resets_time_witness :
  processedData (fold_left extract_row [Some row_monday; Some row_blank_cs102]
                   (mkState [] "TUESDAY" "9:00 AM")) =
    [build_entry "MONDAY, JAN 5" EmptyString row_blank_cs102].
Proof.
  apply (date_header_resets_time (mkState [] "TUESDAY" "9:00 AM") row_monday "MONDAY, JAN 5" row_blank_cs102);
    vm_compute; reflexivity.
Defined.

(** C6: the data region starts after the first row among the first 20
    whose text contains COURSE or TIME, or at row 0 when there is none. *)
Theorem find_data_start_spec g :
  (find_data_start g = 0 /\ forall j e, j < 20 -> g !! j = Some e -> is_header_row e = false) \/
  (exists j e, find_data_start g = S j /\ j < 20 /\ g !! j = Some e /\ is_header_row e = true /\
     forall j' e', j' < j -> g !! j' = Some e' -> is_header_row e' = false).
Proof. apply (scan_header_spec 20 0 g). Qed.

(** C12: an entry's date comes only from a date header with at least two
    cells.  When every row whose cell 0 names a weekday or a month has
    fewer than two cells, like the one-cell date row of the
    specification's end-to-end example, every entry gets an empty date. *)
Theorem short_date_rows_ignored g :
  (forall r, In (Some r) g -> date_test (firstCell r) = true -> length r < 2) ->
  forall e, In e (extractExamData g) -> examDate e = EmptyString.
Proof.
  intros Hg. apply (extract_dates (fun d => d = EmptyString)); [done|].
  intros r d Hr Hc. unfold classify in Hc.
  destruct (Nat.ltb_spec (length r) 2); [discriminate|].
  destruct (date_test (firstCell r)) eqn:Ht; [specialize (Hg r Hr Ht); lia|].
  by destruct (is_course_row r).
Qed.

Lemma short_date_rows_ignored_witness :
  examDate (build_entry EmptyString "9:00 AM" row_9am_cs101) = EmptyString.
Proof.
  apply (short_date_rows_ignored spec_example_grid).
  - intros r Hr Ht. repeat destruct Hr as [Hr|Hr]; try done; injection Hr as <-;
      vm_compute in Ht |- *; [discriminate|lia|discriminate|discriminate].
  - vm_compute. left. reflexivity.
Defined.

(** C13: the loop yields at most one entry per row of the data region. *)
Theorem extract_length_bound g :
  length (extractExamData g) <= length g - find_data_start g.
Proof.
  unfold extractExamData. rewrite extract_rows_abs. simpl.
  rewrite <- length_drop, <- (length_rev (drop _ g)). apply length_spec_above.
Qed.

(** C16: a number in cell 0 (what SheetJS returns for a date or time
    cell) is never read as a date header: [cleanString] maps every
    non-string to the empty string. *)
Theorem numeric_cell_not_date_header r x d :
  cell_at r 0 = JNum x -> classify (Some r) <> RowDate d.
Proof.
  intros Hx. unfold classify, firstCell. rewrite Hx. unfold js_or.
  destruct (truthy (JNum x)); simpl; repeat case_match; congruence.
Qed.

Lemma numeric_cell_not_date_header_witness :
  classify (Some [JNum "45296"; JStr "CS 101"]) <> RowDate "MONDAY".
Proof. apply (numeric_cell_not_date_header _ "45296"). reflexivity. Defined.

Lemma extract_searchable_code_witness :
  searchableCode (build_entry EmptyString "9:00 AM" row_9am_cs101) =
    strip_ws (toUpperCase (courseCode (build_entry EmptyString "9:00 AM" row_9am_cs101))).
Proof. apply (extract_searchable_code spec_example_grid). vm_compute. left. reflexivity. Defined.

Lemma extract_entry_origin_witness :
  exists r d t, In (Some r) (drop (find_data_start spec_example_grid) spec_example_grid) /\
    2 <= length r /\ date_test (firstCell r) = false /\ is_course_row r = true /\
    build_entry EmptyString "9:00 AM" row_blank_cs102 = build_entry d t r.
Proof. apply (extract_entry_origin spec_example_grid). vm_compute. right. left. reflexivity. Defined.

(** ** Well-formed entries *)

(** The shape of every entry the loop emits: all fields but the date are
    trimmed ([String(...).trim()] or a carried trimmed time), and the
    search key is derived from the course code.  The date is not trimmed
    after its quotes are removed (line 102). *)
Definition entry_wf (e : ExamEntry) : Prop :=
  trim (time e) = time e /\ trim (courseCode e) = courseCode e /\
  trim (section e) = section e /\ trim (title e) = title e /\
  trim (instructor e) = instructor e /\ trim (room e) = room e /\
  searchableCode e = strip_ws (toUpperCase (courseCode e)).

(** The loop invariant: the entries so far are well formed and the
    carried time is trimmed. *)
Definition state_wf (st : ExtractState) : Prop :=
  Forall entry_wf (processedData st) /\ trim (currentExamTime st) = currentExamTime st.

Lemma cell_text_trimmed r k : trim (cell_text r k) = cell_text r k.
Proof. unfold cell_text. apply trim_idem. Qed.

Lemma build_entry_wf d t r : trim t = t -> entry_wf (build_entry d t r).
Proof.
  intros Ht. split_and!; [done|apply cell_text_trimmed..|apply build_entry_searchable].
Qed.

Lemma extract_row_wf st e : state_wf st -> state_wf (extract_row st e).
Proof.
  intros [Hd Ht]. destruct e as [r|]; [|by split]. unfold extract_row.
  case_ifs; simpl; try by split.
  all: split; [apply Forall_app; split; [done|apply Forall_singleton, build_entry_wf]|];
       try apply cell_text_trimmed; done.
Qed.

(** C33: every entry [extractExamData] returns is well formed: its time,
    course code, section, title, instructor and room are trimmed, and
    its search key is the upper-cased course code without white space. *)
Theorem extractExamData_entries_wf g : Forall entry_wf (extractExamData g).
Proof.
  unfold extractExamData, extract_rows.
  apply (fold_left_invariant state_wf); [apply extract_row_wf|]. by split.
Qed.
