(* ===== verification/ExtractLoops.v ===== *)
(** * ExtractLoops: the two [for] loops of [extractExamData] as written

    [Extract] models the header scan as a recursion on the rows and the
    row loop as a fold.  Here the loops of src/js/parse.js are written as
    the [for] statements they are ([Prelude.for_loop]), indexing
    [rawData[i]] and breaking where the code breaks, each with the fuel
    its bound allows: 20 iterations for the scan of lines 78-84, one per
    row for the loop of lines 89-138.  The theorem of this file shows
    that this fuel never runs out and that the loops compute
    [extractExamData]. *)

From Stdlib Require Import Ascii String.
From stdpp Require Import base list strings.
From Stdlib Require Import Lia.
From S2P Require Import Prelude JsString JsValue Regex Extract.

Local Open Scope string_scope.

(** The body of the scan (lines 79-83): a header row sets
    [dataStart = i + 1] and breaks. *)
Definition header_body (g : grid) (i dataStart : nat) : flow nat :=
  if is_header_row (default None (g !! i)) then Break (S i) else Continue dataStart.

(** The body of the row loop (lines 90-137), [row = rawData[i]]; its
    [continue]s end the iteration, it never breaks. *)
Definition row_body (g : grid) (i : nat) (st : ExtractState) : flow ExtractState :=
  Continue (extract_row st (default None (g !! i))).

(** [extractExamData] (lines 71-143) with its two loops. *)
Definition extractExamData_loops (g : grid) : option (list ExamEntry) :=
  dataStart ← for_loop 20 0 (Nat.min 20 (length g)) (header_body g) 0;
  st ← for_loop (length g) dataStart (length g) (row_body g) init_state;
  Some (processedData st).

(** ** Lemmas *)

Lemma scan_header_min b i g : scan_header b i g = scan_header (Nat.min b (length g)) i g.
Proof.
  revert b i. induction g as [|e g IH]; intros [|b] i; [done..|].
  simpl. destruct (is_header_row e); [done|]. by rewrite IH.
Qed.

(** The scan from row [i] with [k] iterations left. *)
Lemma header_loop g k i :
  i + k <= length g ->
  for_loop k i (i + k) (header_body g) 0 = Some (scan_header k i (drop i g)).
Proof.
  revert i. induction k as [|k IH]; intros i Hk.
  - rewrite for_loop_done by lia. done.
  - destruct (lookup_lt_is_Some_2 g i) as [e He]; [lia|].
    rewrite for_loop_step by lia. rewrite (drop_S g e i He).
    unfold header_body. rewrite He. simpl. destruct (is_header_row e); [done|].
    rewrite Nat.add_succ_r. apply IH. lia.
Qed.

Lemma header_loop_find_data_start g :
  for_loop 20 0 (Nat.min 20 (length g)) (header_body g) 0 = Some (find_data_start g).
Proof.
  rewrite for_loop_fuel, Nat.sub_0_r by lia.
  pose proof (header_loop g (Nat.min 20 (length g)) 0 ltac:(lia)) as H.
  rewrite Nat.add_0_l in H. rewrite H, drop_0. unfold find_data_start. by rewrite (scan_header_min 20 0 g).
Qed.

Lemma row_loop_fold g dataStart st :
  for_loop (length g) dataStart (length g) (row_body g) st = Some (fold_left extract_row (drop dataStart g) st).
Proof.
  rewrite (for_loop_fold _ _ (fun st j => extract_row st (default None (g !! j)))) by (done || lia).
  by rewrite fold_left_seq_lookup.
Qed.

(** ** The loops terminate and compute [extractExamData] *)

(** C32: with 20 iterations for the header scan and one per row for the
    main loop, neither [for] loop runs out of fuel, and together they
    return what [extractExamData] returns, on every grid. *)
Theorem extractExamData_loops_total g : extractExamData_loops g = Some (extractExamData g).
Proof.
  unfold extractExamData_loops. rewrite header_loop_find_data_start. simpl.
  by rewrite row_loop_fold.
Qed.
