(* ===== verification/Search.v ===== *)
(** * Search: [searchExams] of src/js/search.js

    [searchExams] reads the query from the input box, filters the global
    [examsData] and calls [displayResults] with the matches and a message.
    Here it is the pure function [searchExams] of the stored entries and
    the raw query, returning the two arguments of that [displayResults]
    call (the UI effects are modelled in [App]).  The class [ExamSource]
    states what the search needs from the extractor; [extractExamData]
    is an instance. *)

From Stdlib Require Import Ascii String.
From stdpp Require Import base list strings.
From Stdlib Require Import Lia.
From S2P Require Import Prelude JsString JsValue Regex Extract.

Local Open Scope string_scope.

(** ** The search *)

(** [cleanString(rawQuery).replace(/\s+/g, '')] *)
Definition normalize_query (rawQuery : string) : string := strip_ws (cleanString (JStr rawQuery)).

(** The filter predicate of lines 74-76. *)
Definition matches_query (cleanedQuery : string) (exam : ExamEntry) : bool :=
  startsWith (searchableCode exam) cleanedQuery || String.eqb (searchableCode exam) cleanedQuery.

(** The message of line 81: [No exams found for "<rawQuery>".] *)
Definition no_results_message (rawQuery : string) : string :=
  "No exams found for " ++ String dquote (rawQuery ++ String dquote ".").

Definition empty_query_message : string := "Please enter a course code.".

(** [searchExams] (lines 66-83): the arguments of the [displayResults]
    call it makes; the message defaults to the empty string. *)
Definition searchExams (examsData : list ExamEntry) (rawQuery : string) : list ExamEntry * string :=
  if String.eqb rawQuery EmptyString then ([], empty_query_message)
  else
    let cleanedQuery := normalize_query rawQuery in
    let filteredResults := List.filter (matches_query cleanedQuery) examsData in
    match filteredResults with
    | [] => ([], no_results_message rawQuery)
    | _ => (filteredResults, EmptyString)
    end.

(** ** What the search needs from the extractor *)

Class ExamSource (extract : grid -> list ExamEntry) := {
  source_key g e : In e (extract g) -> searchableCode e = strip_ws (toUpperCase (courseCode e));
  source_code_trimmed g e : In e (extract g) -> trim (courseCode e) = courseCode e;
  source_code_nonempty g e : In e (extract g) -> courseCode e <> EmptyString
}.

(** ** Lemmas *)

Lemma prefix_refl s : String.prefix s s = true.
Proof. apply prefix_app_iff. exists EmptyString. by rewrite str_app_nil_r. Qed.

Lemma matches_query_iff q e : matches_query q e = true <-> exists rest, searchableCode e = q ++ rest.
Proof.
  unfold matches_query, startsWith. rewrite orb_true_iff, prefix_app_iff, String.eqb_eq.
  split; [intros [H| ->]; [done|exists EmptyString; by rewrite str_app_nil_r] | intros H; by left].
Qed.

(** The normalisation of line 73 distributes over concatenation. *)
Lemma normalize_query_app q x : normalize_query (q ++ x) = normalize_query q ++ normalize_query x.
Proof.
  unfold normalize_query, cleanString.
  by rewrite !strip_ws_upper, !strip_ws_trim, strip_ws_app, toUpperCase_app.
Qed.

Lemma searchExams_nonempty data q :
  q <> EmptyString ->
  searchExams data q =
    match List.filter (matches_query (normalize_query q)) data with
    | [] => ([], no_results_message q)
    | l => (l, EmptyString)
    end.
Proof. intros Hq. unfold searchExams. apply String.eqb_neq in Hq. rewrite Hq. simpl. by destruct (List.filter _ data). Qed.

(** The results are the filtered entries (possibly none). *)
Lemma searchExams_results data q :
  q <> EmptyString -> fst (searchExams data q) = List.filter (matches_query (normalize_query q)) data.
Proof. intros Hq. rewrite searchExams_nonempty by done. by destruct (List.filter _ data). Qed.

Lemma extract_built g e :
  In e (extractExamData g) -> exists r d t, is_course_row r = true /\ e = build_entry d t r.
Proof.
  intros (r & d & t & _ & (_ & _ & Hc)%classify_course & ->)%in_extractExamData%spec_above_origin.
  by exists r, d, t.
Qed.

#[export] Instance extract_ExamSource : ExamSource extractExamData.
Proof.
  split; intros g e (r & d & t & Hc & ->)%extract_built.
  - apply build_entry_searchable.
  - simpl. unfold cell_text. apply trim_idem.
  - simpl. intros Hempty. revert Hc. unfold is_course_row. rewrite Hempty. done.
Qed.

(** ** Properties of [searchExams] *)

(** C7: a non-empty query returns exactly the stored entries whose
    [searchableCode] starts with the normalised query (upper-cased, all
    white space removed). *)
Theorem search_prefix_semantics data q e :
  q <> EmptyString ->
  In e (fst (searchExams data q)) <->
  In e data /\ exists rest, searchableCode e = normalize_query q ++ rest.
Proof. intros Hq. by rewrite searchExams_results, filter_In, matches_query_iff. Qed.

Lemma search_prefix_semantics_witness :
  In (build_entry EmptyString "9:00 AM" row_blank_cs102)
     (fst (searchExams (extractExamData spec_example_grid) "cs 10")) <->
  In (build_entry EmptyString "9:00 AM" row_blank_cs102) (extractExamData spec_example_grid) /\
  exists rest, searchableCode (build_entry EmptyString "9:00 AM" row_blank_cs102) =
               normalize_query "cs 10" ++ rest.
Proof. apply search_prefix_semantics. discriminate. Defined.

(** C8: the results keep the stored order: they are a sublist of the
    stored entries. *)
Theorem search_preserves_order data q : fst (searchExams data q) `sublist_of` data.
Proof.
  destruct (String.eqb_spec q EmptyString) as [->|Hq]; [apply sublist_nil_l|].
  rewrite searchExams_results by done. apply filter_bool_sublist.
Qed.

(** C10: a message is shown exactly when no entry is: the empty query
    and the query without matches both give an empty result with an
    advisory, never an error. *)
Theorem search_message_iff_no_results data q :
  snd (searchExams data q) = EmptyString <-> fst (searchExams data q) <> [].
Proof.
  unfold searchExams. destruct (String.eqb q EmptyString); [done|].
  simpl. by destruct (List.filter _ data).
Qed.

(** C11: a query of white space only is not empty, so it is not
    answered with the prompt; it normalises to the empty string, a
    prefix of every code, and every stored entry is returned. *)
Theorem search_blank_query_returns_all data q :
  q <> EmptyString -> strip_ws q = EmptyString -> fst (searchExams data q) = data.
Proof.
  intros Hq Hws. rewrite searchExams_results by done.
  assert (normalize_query q = EmptyString) as ->.
  { unfold normalize_query, cleanString. by rewrite strip_ws_upper, strip_ws_trim, Hws. }
  apply filter_bool_all. intros e _. unfold matches_query, startsWith.
  by destruct (searchableCode e).
Qed.

Lemma search_blank_query_returns_all_witness :
  fst (searchExams (extractExamData spec_example_grid) "   ") = extractExamData spec_example_grid.
Proof. apply search_blank_query_returns_all; vm_compute; [discriminate|reflexivity]. Defined.

Section AgainstTheInterface.
Context (extract : grid -> list ExamEntry) `{!ExamSource extract}.

(** C9: searching for the course code of an extracted entry, as
    written in the timetable, finds that entry. *)
Theorem search_finds_own_code g e :
  In e (extract g) -> In e (fst (searchExams (extract g) (courseCode e))).
Proof.
  intros Hin. rewrite searchExams_results by (by eapply source_code_nonempty).
  apply filter_In. split; [done|]. apply matches_query_iff. exists EmptyString.
  rewrite str_app_nil_r. unfold normalize_query, cleanString.
  rewrite (source_code_trimmed g e Hin). by apply (source_key g).
Qed.
End AgainstTheInterface.

Lemma search_finds_own_code_witness :
  In (build_entry EmptyString "9:00 AM" row_9am_cs101)
     (fst (searchExams (extractExamData spec_example_grid)
                       (courseCode (build_entry EmptyString "9:00 AM" row_9am_cs101)))).
Proof. apply (search_finds_own_code extractExamData spec_example_grid). vm_compute. left. reflexivity. Defined.

(** C38: typing more narrows the search: every entry found for a
    non-empty query extended by further text is also found for the
    query alone, since the normalisation (trim, upper-case, white space
    removed) of an extended query extends that of the query. *)
Theorem search_refine_query data q x e :
  q <> EmptyString -> In e (fst (searchExams data (q ++ x))) -> In e (fst (searchExams data q)).
Proof.
  intros Hq. assert (q ++ x <> EmptyString) as Hqx by (intros (? & _)%str_app_eq_nil; done).
  rewrite !searchExams_results, !filter_In, !matches_query_iff by done.
  intros [Hin [rest Hr]]. split; [done|]. exists (normalize_query x ++ rest).
  rewrite Hr, normalize_query_app. by rewrite str_app_assoc.
Qed.

Lemma search_refine_query_witness :
  In (build_entry EmptyString "9:00 AM" row_9am_cs101) (fst (searchExams (extractExamData spec_example_grid) "cs")).
Proof. apply (search_refine_query _ "cs" " 101"); [discriminate|vm_compute; left; reflexivity]. Defined.
