(* ===== verification/Decode.v ===== *)
(** * Decode: [parseFile] and [parseCSVFile] of src/js/parse.js

    [parseFile] chooses a reader from the lower-cased file name, or
    reports an unsupported format; [parseCSVFile] turns the text of the
    file into the raw grid by splitting on newlines and commas, trimming
    each cell and removing one leading and one final double quote.  The
    FileReader callbacks are modelled in [App], and the SheetJS steps of
    [parseExcelFile] in [Excel]. *)

From Stdlib Require Import Ascii String.
From stdpp Require Import base list strings.
From Stdlib Require Import Lia.
From S2P Require Import Prelude JsString JsValue Regex Extract.

Local Open Scope string_scope.

(** ** Dispatch on the file name (lines 17-26) *)

Inductive reader := ExcelReader | CsvReader.

Definition unsupported_message : string := "Unsupported file format. Please upload .xlsx or .csv".

(** [parseFile]: the reader it starts, or the message it passes to
    [onError]. *)
Definition parseFile (name : string) : reader + string :=
  let fileName := toLowerCase name in
  if endsWith fileName ".xlsx" || endsWith fileName ".xls" then inl ExcelReader
  else if endsWith fileName ".csv" then inl CsvReader
  else inr unsupported_message.

(** ** The CSV decoder (lines 55-59) *)

Definition newline : ascii := ascii_of_nat 10.
Definition carriage_return : ascii := ascii_of_nat 13.
Definition comma : ascii := ",".

(** [cell.trim().replace(/^Q|Q$/g, '')], Q the double quote *)
Definition csv_cell (cell : string) : jsval := JStr (strip_outer_dquotes (trim cell)).

(** [line.split(',').map(...)] *)
Definition csv_line (line : string) : option row := Some (map csv_cell (split comma line)).

(** [text.split('\n').map(...)]: the grid handed to [onSuccess]. *)
Definition parseCSV (text : string) : grid := map csv_line (split newline text).

(** ** Encoding, for the round trip *)

(** A cell that the decoder gives back unchanged: no comma, no newline,
    no surrounding white space, no leading or final double quote. *)
Definition csv_cell_ok (c : string) : Prop :=
  has_char comma c = false /\ has_char newline c = false /\
  trim c = c /\ strip_outer_dquotes c = c.

(** Lines joined by LF. *)
Definition encode_csv (rows : list (list string)) : string :=
  join (String newline EmptyString) (map (join (String comma EmptyString)) rows).

(** Every line terminated by CR LF, as written on Windows. *)
Fixpoint encode_csv_crlf (rows : list (list string)) : string :=
  match rows with
  | [] => EmptyString
  | r :: rs => join (String comma EmptyString) r ++
                 String carriage_return (String newline (encode_csv_crlf rs))
  end.

(** ** Lemmas *)

Lemma csv_cell_ok_decode c : csv_cell_ok c -> csv_cell c = JStr c.
Proof. intros (_ & _ & Ht & Hq). unfold csv_cell. by rewrite Ht, Hq. Qed.

Lemma csv_line_join (r : list string) :
  r <> [] -> Forall csv_cell_ok r -> csv_line (join (String comma EmptyString) r) = Some (map JStr r).
Proof.
  intros Hne Hr. unfold csv_line. rewrite split_join by (done || by eapply Forall_impl; [exact Hr|intros c (? & _)]).
  f_equal. apply map_ext_in. intros c Hc. apply csv_cell_ok_decode.
  exact (proj1 (List.Forall_forall _ _) Hr c Hc).
Qed.

Lemma all_ws_cr : all_ws (String carriage_return EmptyString) = true.
Proof. reflexivity. Qed.

(** A line ended by CR decodes as the line without it. *)
Lemma csv_line_crlf (r : list string) :
  r <> [] -> Forall csv_cell_ok r ->
  csv_line (join (String comma EmptyString) r ++ String carriage_return EmptyString) = Some (map JStr r).
Proof.
  intros Hne Hr. unfold csv_line. f_equal.
  induction Hr as [|c r Hc Hr IH]; [done|].
  destruct r as [|d r].
  - simpl join. rewrite split_no_sep.
    + simpl. unfold csv_cell. rewrite trim_app_ws by apply all_ws_cr.
      destruct Hc as (_ & _ & -> & ->). done.
    + rewrite has_char_app. destruct Hc as (-> & _). done.
  - change (join (String comma EmptyString) (c :: d :: r)) with
      (c ++ String comma EmptyString ++ join (String comma EmptyString) (d :: r)).
    rewrite <- !str_app_assoc. change (String comma EmptyString ++ ?x) with (String comma x).
    rewrite split_app_sep by (by destruct Hc). simpl.
    rewrite csv_cell_ok_decode by done. f_equal. by apply IH.
Qed.

Lemma has_char_join_fields sep (rows : list (list string)) :
  Forall (fun r => Forall (fun c => has_char sep c = false) r) rows ->
  Ascii.eqb comma sep = false ->
  Forall (fun l => has_char sep l = false) (map (join (String comma EmptyString)) rows).
Proof.
  intros Hrows Hc. apply Forall_map. eapply Forall_impl; [exact Hrows|].
  intros r Hr. apply has_char_join; [cbn [has_char]; by rewrite Hc|done].
Qed.

Lemma has_char_line nl_c (r : list string) :
  Ascii.eqb comma nl_c = false -> Forall (fun c => has_char nl_c c = false) r ->
  has_char nl_c (join (String comma EmptyString) r) = false.
Proof. intros Hc Hr. apply has_char_join; [cbn [has_char]; by rewrite Hc|done]. Qed.

Lemma cells_no_newline (r : list string) :
  Forall csv_cell_ok r -> Forall (fun c => has_char newline c = false) r.
Proof. intros Hr. eapply Forall_impl; [exact Hr|]. by intros c (_ & ? & _). Qed.

(** Every cell of the decoded grid is a string without a comma. *)
Lemma parseCSV_cells_no_comma text r :
  In (Some r) (parseCSV text) -> Forall (fun v => exists s, v = JStr s /\ has_char comma s = false) r.
Proof.
  unfold parseCSV. intros (line & Hl & _)%in_map_iff. unfold csv_line in Hl. injection Hl as <-.
  apply Forall_map. eapply Forall_impl; [apply split_pieces|]. intros p Hp.
  eexists. split; [reflexivity|]. by apply has_char_strip_outer_dquotes, has_char_trim.
Qed.

Lemma cell0_no_comma r :
  Forall (fun v => exists s, v = JStr s /\ has_char comma s = false) r ->
  has_char comma (js_String (cell_at r 0)) = false.
Proof. intros Hr. destruct Hr as [|v r' (s & -> & Hs) _]; [reflexivity|done]. Qed.

(** ** Properties of the decoder *)

(** C18: CSV round trip: text written from rows of well-formed cells
    (no comma, no newline, no surrounding blanks or quotes) decodes to
    exactly those rows. *)
Theorem parseCSV_roundtrip (rows : list (list string)) :
  rows <> [] -> Forall (fun r => r <> [] /\ Forall csv_cell_ok r) rows ->
  parseCSV (encode_csv rows) = map (fun r => Some (map JStr r)) rows.
Proof.
  intros Hne Hrows. unfold parseCSV, encode_csv.
  rewrite split_join.
  - rewrite map_map. apply map_ext_in. intros r Hr.
    destruct (proj1 (List.Forall_forall _ _) Hrows r Hr) as [Hr0 Hok].
    by apply csv_line_join.
  - by destruct rows.
  - apply Forall_map. eapply Forall_impl; [exact Hrows|].
    intros r [_ Hok]. by apply has_char_line, cells_no_newline.
Qed.

Lemma parseCSV_roundtrip_witness :
  parseCSV (encode_csv [["Time"; "Course"]; ["9:00 AM"; "CS 101"]]) =
    [Some [JStr "Time"; JStr "Course"]; Some [JStr "9:00 AM"; JStr "CS 101"]].
Proof.
  apply parseCSV_roundtrip; [discriminate|].
  repeat constructor; try discriminate; vm_compute; reflexivity.
Defined.

(** C19: a file whose lines all end in CR LF decodes to the same rows as
    with LF alone ([trim] removes the CR), followed by the one-cell row
    of the empty last line. *)
Theorem parseCSV_crlf (rows : list (list string)) :
  Forall (fun r => r <> [] /\ Forall csv_cell_ok r) rows ->
  parseCSV (encode_csv_crlf rows) =
    (map (fun r => Some (map JStr r)) rows ++ [Some [JStr EmptyString]])%list.
Proof.
  unfold parseCSV. induction 1 as [|r rows [Hr0 Hok] Hrows IH]; [done|].
  cbn [encode_csv_crlf].
  replace (join (String comma EmptyString) r ++ String carriage_return (String newline (encode_csv_crlf rows)))
    with ((join (String comma EmptyString) r ++ String carriage_return EmptyString) ++
          String newline (encode_csv_crlf rows)) by (by rewrite <- str_app_assoc).
  rewrite split_app_sep.
  - simpl. rewrite csv_line_crlf by done. by rewrite IH.
  - rewrite has_char_app, has_char_line by (done || by apply cells_no_newline). done.
Qed.

Lemma parseCSV_crlf_witness :
  parseCSV (encode_csv_crlf [["9:00 AM"; "CS 101"]]) =
    [Some [JStr "9:00 AM"; JStr "CS 101"]; Some [JStr EmptyString]].
Proof. apply (parseCSV_crlf [["9:00 AM"; "CS 101"]]). repeat constructor; try discriminate; vm_compute; reflexivity. Defined.

(** C20: the reader is chosen from the file name without regard to case. *)
Theorem parseFile_case_insensitive name : parseFile (toUpperCase name) = parseFile name.
Proof. unfold parseFile. by rewrite toLowerCase_upper. Qed.

(** C21: [parseFile] reports the unsupported format exactly for the
    names whose lower-cased form ends in none of .xlsx, .xls and .csv. *)
Theorem parseFile_rejects name m :
  parseFile name = inr m <->
  m = unsupported_message /\
  forall ext, In ext [".xlsx"; ".xls"; ".csv"] -> ~ exists a, toLowerCase name = a ++ ext.
Proof.
  unfold parseFile. cbv zeta.
  destruct (endsWith (toLowerCase name) ".xlsx") eqn:E1;
  [|destruct (endsWith (toLowerCase name) ".xls") eqn:E2;
   [|destruct (endsWith (toLowerCase name) ".csv") eqn:E3]]; simpl.
  - split; [discriminate|]. intros [_ H]. exfalso. apply (H ".xlsx"); [by left|by apply endsWith_iff].
  - split; [discriminate|]. intros [_ H]. exfalso. apply (H ".xls"); [by right; left|by apply endsWith_iff].
  - split; [discriminate|]. intros [_ H]. exfalso. apply (H ".csv"); [by right; right; left|by apply endsWith_iff].
  - split; [intros [= <-]|intros [-> _]; done]. split; [done|].
    intros ext [<-|[<-|[<-|[]]]] Hs%endsWith_iff; congruence.
Qed.

(** The CSV form of a timetable whose date header is quoted because it
    contains a comma. *)
Definition csv_quoted_date_text : string :=
  "Time,Course,Section,Title" ++ String newline
  (String dquote ("MONDAY, JAN 5" ++ String dquote
  (String newline "9:00 AM,CS 101,001,Intro to CS"))).

Definition csv_course_row : row := [JStr "9:00 AM"; JStr "CS 101"; JStr "001"; JStr "Intro to CS"].

(** C22: the decoder splits on every comma, also inside double quotes,
    so no cell it yields contains a comma; hence no entry extracted from
    a CSV file has a date with a comma: a quoted header such as
    "MONDAY, JAN 5" loses everything after its comma. *)
Theorem csv_dates_no_comma text e :
  In e (extractExamData (parseCSV text)) -> has_char comma (examDate e) = false.
Proof.
  apply (extract_dates (fun d => has_char comma d = false)); [done|].
  intros r d Hr Hc. unfold classify in Hc.
  destruct (Nat.ltb (length r) 2); [discriminate|].
  destruct (date_test (firstCell r)); [injection Hc as <-|by destruct (is_course_row r)].
  apply has_char_remove_dquotes, has_char_trim, cell0_no_comma.
  by apply (parseCSV_cells_no_comma text).
Qed.

Lemma csv_dates_no_comma_witness :
  has_char comma (examDate (build_entry "MONDAY" "9:00 AM" csv_course_row)) = false.
Proof. apply (csv_dates_no_comma csv_quoted_date_text). vm_compute. left. reflexivity. Defined.

(** C34: the decoder yields one row per line, one more than the text has
    line feeds, and each row has one cell per comma of its line plus
    one. *)
Theorem parseCSV_shape text :
  length (parseCSV text) = S (count_char newline text) /\
  map (option_map length) (parseCSV text) =
    map (fun line => Some (S (count_char comma line))) (split newline text).
Proof.
  unfold parseCSV. split; [by rewrite length_map, length_split|].
  rewrite map_map. apply map_ext. intros line.
  unfold csv_line. cbn [option_map]. by rewrite length_map, length_split.
Qed.
