(* ===== verification/Excel.v ===== *)
(** * Excel: the SheetJS steps of [parseExcelFile] in src/js/parse.js

    Lines 35-39 of [parseExcelFile] read the workbook with [XLSX.read],
    take the name of its first sheet, look the sheet up in the
    [workbook.Sheets] object and convert it with [sheet_to_json].
    [XLSX.read] is the library's decoder: its result, a workbook or the
    message of the exception it throws, is part of the file in [App].
    A worksheet is represented by the grid [sheet_to_json] (with
    [header: 1, defval: '']) yields for it, and [Sheets] by a finite map
    from sheet names.  For a missing sheet ([worksheet] undefined),
    SheetJS's [sheet_to_json] returns an empty array. *)

From Stdlib Require Import Ascii String.
From stdpp Require Import base list strings gmap.
From S2P Require Import Prelude JsValue.

Local Open Scope string_scope.

(** The workbook object: [SheetNames] in workbook order and [Sheets]
    keyed by name. *)
Record workbook := mkWorkbook {
  SheetNames : list string;
  Sheets : gmap string grid
}.

(** [workbook.SheetNames[0]] *)
Definition firstSheetName (wb : workbook) : option string := SheetNames wb !! 0.

(** [workbook.Sheets[firstSheetName]] *)
Definition first_worksheet (wb : workbook) : option grid :=
  firstSheetName wb ≫= fun name => Sheets wb !! name.

(** [XLSX.utils.sheet_to_json(worksheet, ...)]: the grid of the sheet, or
    [[]] for an undefined sheet. *)
Definition sheet_to_json (worksheet : option grid) : grid := default [] worksheet.

(** Lines 35-39: the [rawData] handed to [onSuccess], or the message of
    the exception [XLSX.read] threw. *)
Definition excel_rawData (read : string + workbook) : string + grid :=
  match read with
  | inl msg => inl msg
  | inr wb => inr (sheet_to_json (first_worksheet wb))
  end.

(** ** Lemmas *)

Lemma excel_rawData_first name names sheets :
  excel_rawData (inr (mkWorkbook (name :: names) sheets)) = inr (sheet_to_json (sheets !! name)).
Proof. reflexivity. Qed.

Lemma excel_rawData_no_sheet sheets : excel_rawData (inr (mkWorkbook [] sheets)) = inr [].
Proof. reflexivity. Qed.

(** C17: only the first sheet of the workbook is read: replacing or
    adding any sheet under another name, or renaming the later sheets,
    does not change the grid [parseExcelFile] passes on. *)
Theorem excel_first_sheet_only name names names' sheets other g :
  other <> name ->
  excel_rawData (inr (mkWorkbook (name :: names') (<[other := g]> sheets))) =
  excel_rawData (inr (mkWorkbook (name :: names) sheets)).
Proof.
  intros Hne. rewrite !excel_rawData_first. by rewrite lookup_insert_ne by congruence.
Qed.

Lemma excel_first_sheet_only_witness :
  excel_rawData (inr (mkWorkbook ["Exams"] (<["Notes" := [None]]> {["Exams" := [Some [JStr "x"]]]}))) =
  excel_rawData (inr (mkWorkbook ["Exams"; "Notes"] {["Exams" := [Some [JStr "x"]]]})).
Proof. apply excel_first_sheet_only. discriminate. Defined.
