(* ===== verification/Dom.v ===== *)
(** * Dom: the DOM elements the page of src/js/search.js writes

    The eight elements bound at lines 9-16 of search.js, each as the
    record of the fields the handlers read or write, with the setters
    for the assignments and [classList] calls of the code and their
    rewriting lemmas ([page_rw]). *)

From Stdlib Require Import Ascii String.
From stdpp Require Import base list strings sets.
From Stdlib Require Import Lia.
From S2P Require Import Prelude.

Local Open Scope string_scope.

Create Rewrite HintDb page_rw.

(** ** The DOM *)

(** The elements of lines 9-16. *)
Inductive elem :=
| UPLOAD_STATUS | FILE_TEXT | SEARCH_SECTION | RESULTS_SECTION
| RESULTS_MESSAGE | RESULTS_TABLE | RESULTS_BODY | COURSE_INPUT.

#[export] Instance elem_eq_dec : EqDecision elem.
Proof. solve_decision. Defined.

(** What the handlers read and write of an element. *)
Record element := mkElement {
  textContent : string;
  classes : list string;          (** the class list *)
  rows : list string;             (** innerHTML of each appended row *)
  value : string;                 (** an input's value *)
  focused : bool;
  fontWeight : string;
  color : string
}.

Definition hidden_class : string := "hidden".

Definition is_hidden (e : element) : bool := bool_decide (hidden_class ∈ classes e).

Definition set_textContent (t : string) (e : element) : element :=
  mkElement t (classes e) (rows e) (value e) (focused e) (fontWeight e) (color e).

(** [el.className = c] *)
Definition set_className (c : string) (e : element) : element :=
  mkElement (textContent e) [c] (rows e) (value e) (focused e) (fontWeight e) (color e).

(** [el.classList.add(c)] *)
Definition class_add (c : string) (e : element) : element :=
  mkElement (textContent e) (if bool_decide (c ∈ classes e) then classes e else classes e ++ [c])
            (rows e) (value e) (focused e) (fontWeight e) (color e).

(** [el.classList.remove(c)] *)
Definition class_remove (c : string) (e : element) : element :=
  mkElement (textContent e) (List.filter (fun d => negb (String.eqb d c)) (classes e))
            (rows e) (value e) (focused e) (fontWeight e) (color e).

Definition set_rows (rs : list string) (e : element) : element :=
  mkElement (textContent e) (classes e) rs (value e) (focused e) (fontWeight e) (color e).

Definition set_value (v : string) (e : element) : element :=
  mkElement (textContent e) (classes e) (rows e) v (focused e) (fontWeight e) (color e).

Definition set_focus (e : element) : element :=
  mkElement (textContent e) (classes e) (rows e) (value e) true (fontWeight e) (color e).

Definition set_style (w c : string) (e : element) : element :=
  mkElement (textContent e) (classes e) (rows e) (value e) (focused e) w c.

(** ** Lemmas *)

Lemma is_hidden_class_add e : is_hidden (class_add hidden_class e) = true.
Proof.
  unfold is_hidden, class_add. apply bool_decide_eq_true. simpl. case_bool_decide; set_solver.
Qed.

Lemma is_hidden_class_remove e : is_hidden (class_remove hidden_class e) = false.
Proof.
  unfold is_hidden, class_remove. simpl. apply bool_decide_eq_false.
  rewrite list_elem_of_In, filter_In. intros [_ H]. by rewrite String.eqb_refl in H.
Qed.

Lemma rows_set_rows rs e : rows (set_rows rs e) = rs.
Proof. reflexivity. Qed.

Lemma textContent_set_className c e : textContent (set_className c e) = textContent e.
Proof. reflexivity. Qed.

Lemma textContent_set_textContent t e : textContent (set_textContent t e) = t.
Proof. reflexivity. Qed.

Lemma classes_set_className c e : classes (set_className c e) = [c].
Proof. reflexivity. Qed.

Lemma classes_set_textContent t e : classes (set_textContent t e) = classes e.
Proof. reflexivity. Qed.

#[export] Hint Rewrite is_hidden_class_add is_hidden_class_remove rows_set_rows : page_rw.
#[export] Hint Rewrite textContent_set_className textContent_set_textContent
  classes_set_className classes_set_textContent : page_rw.
