(* ===== verification/App.v ===== *)
(** * App: the page of src/js/search.js as a state machine

    The page state is the global [examsData] (line 6), the eight DOM
    elements bound at lines 9-16 (records of [Dom]), and the FileReader
    reads that have been started and not yet delivered.  Each handler of search.js is a
    computation of the state monad of [Prelude] over that state, written
    in the order of the source (Module [Page]).  The events of the page
    (a file chosen, a pending read delivered, text typed, a key pressed)
    each run one handler ([handle]); [reachable] is the closure of these
    steps, and its states carry the invariants proved below.  The
    initial DOM comes from index.html, which is not in the repository;
    the theorems take any initial state meeting their invariant, and the
    witnesses use [init_app] (sections hidden, as [processData]
    implies). *)

From Stdlib Require Import Ascii String DecimalString.
From stdpp Require Import base list strings sets.
From Stdlib Require Import Lia.
From S2P Require Import Prelude JsString JsValue Regex Extract Search Decode Excel Dom.

Local Open Scope string_scope.
Local Open Scope cmf_scope.

(** ** The page state *)

(** A file as the browser hands it over: its name, what [readAsText]
    delivers, and what [XLSX.read] makes of the bytes [readAsArrayBuffer]
    delivers (the workbook, or the message of the exception it throws). *)
Record file := mkFile {
  file_name : string;
  file_text : string;
  file_workbook : string + workbook
}.

Record App := mkApp {
  examsData : list ExamEntry;
  dom : elem -> element;
  pending : list (reader * file)   (** reads started, in start order *)
}.

Definition el (x : elem) (s : App) : element := dom s x.

(** Apply [f] to element [x]. *)
Definition update (x : elem) (f : element -> element) : St App unit :=
  st_modify (fun s => mkApp (examsData s)
                            (fun y => if decide (y = x) then f (dom s y) else dom s y)
                            (pending s)).

Definition set_examsData (l : list ExamEntry) : St App unit :=
  st_modify (fun s => mkApp l (dom s) (pending s)).

Definition start_read (rd : reader) (f : file) : St App unit :=
  st_modify (fun s => mkApp (examsData s) (dom s) (pending s ++ [(rd, f)])).

(** ** The handlers *)

Module Page.

(** [setUploadStatus] (lines 40-43) *)
Definition setUploadStatus (msg className : string) : St App unit :=
  update UPLOAD_STATUS (set_textContent msg) ;;
  update UPLOAD_STATUS (set_className className).

Definition nl12 (s : string) : string := String newline ("            " ++ s).

Definition attr (v : string) : string := String dquote (v ++ String dquote EmptyString).

(** The template of [row.innerHTML] (lines 112-119): the fields are
    interpolated as they are, without escaping. *)
Definition render_row (exam : ExamEntry) : string :=
  nl12 ("<td>" ++ examDate exam ++ "</td>") ++
  nl12 ("<td>" ++ time exam ++ "</td>") ++
  nl12 ("<td class=" ++ attr "course-code" ++ ">" ++ courseCode exam ++
        " <small style=" ++ attr "color:#999" ++ ">(" ++ section exam ++ ")</small></td>") ++
  nl12 ("<td>" ++ title exam ++ "</td>") ++
  nl12 ("<td><span class=" ++ attr "room-tag" ++ ">" ++ room exam ++ "</span></td>") ++
  nl12 ("<td>" ++ instructor exam ++ "</td>") ++
  String newline "        ".

(** One turn of the loop of lines 110-121: a row made from the template
    is appended to the body. *)
Definition appendRow (exam : ExamEntry) : St App unit :=
  update RESULTS_BODY (fun e => set_rows (rows e ++ [render_row exam]) e).

(** [displayResults] (lines 97-122) *)
Definition displayResults (results : list ExamEntry) (message : string) : St App unit :=
  update RESULTS_BODY (set_rows []) ;;
  match results with
  | [] =>
      update RESULTS_TABLE (class_add hidden_class) ;;
      update RESULTS_MESSAGE (class_remove hidden_class) ;;
      update RESULTS_MESSAGE (set_textContent message)
  | _ =>
      update RESULTS_MESSAGE (class_add hidden_class) ;;
      update RESULTS_TABLE (class_remove hidden_class) ;;
      st_forEach appendRow results
  end.

Definition nat_text (n : nat) : string := NilEmpty.string_of_uint (Nat.to_uint n).

Definition loaded_message (n : nat) : string :=
  "Success! Loaded " ++ nat_text n ++ " exam entries.".

(** [processData] (lines 48-61) *)
Definition processData (rawData : grid) : St App unit :=
  set_examsData (extractExamData rawData) ;;
  s <- st_get ;;
  if Nat.ltb 0 (length (examsData s)) then
    setUploadStatus (loaded_message (length (examsData s))) "status-success" ;;
    update SEARCH_SECTION (class_remove hidden_class) ;;
    update RESULTS_SECTION (class_remove hidden_class) ;;
    update COURSE_INPUT set_focus ;;
    update RESULTS_MESSAGE (set_textContent "Enter a course code to start searching.") ;;
    update RESULTS_TABLE (class_add hidden_class) ;;
    update RESULTS_MESSAGE (class_remove hidden_class)
  else setUploadStatus "Error: No valid exam data found." "status-error".

(** [searchExams] (lines 66-83): the pure part is [Search.searchExams]. *)
Definition searchExams : St App unit :=
  s <- st_get ;;
  let rawQuery := value (el COURSE_INPUT s) in
  let '(results, message) := Search.searchExams (examsData s) rawQuery in
  displayResults results message.

(** [handleSearch] (lines 88-92) *)
Definition handleSearch (key : string) : St App unit :=
  if String.eqb key "Enter" then searchExams else st_ret tt.

(** The callbacks [handleFileChange] passes to [parseFile] (lines 31-32). *)
Definition onSuccess (rawData : grid) : St App unit := processData rawData.

Definition onError (errorMsg : string) : St App unit := setUploadStatus errorMsg "status-error".

(** [reader.onload] of [parseExcelFile] (lines 33-45): the grid of the
    first sheet ([Excel.excel_rawData]) goes to [onSuccess]; if
    [XLSX.read] throws, the [catch] reports its message. *)
Definition excel_onload (f : file) : St App unit :=
  match excel_rawData (file_workbook f) with
  | inr rawData => onSuccess rawData
  | inl msg => onError ("Error parsing file: " ++ msg)
  end.

(** [reader.onload] of [parseCSVFile] (lines 54-64); splitting and
    trimming a string do not throw, so its [catch] is never taken. *)
Definition csv_onload (f : file) : St App unit := onSuccess (parseCSV (file_text f)).

(** The [onload] of the reader a read was started with. *)
Definition onload (rd : reader) (f : file) : St App unit :=
  match rd with
  | CsvReader => csv_onload f
  | ExcelReader => excel_onload f
  end.

(** [parseExcelFile] (lines 31-47): a reader is created, given its
    [onload], and [readAsArrayBuffer] starts; [onload] runs when the
    browser delivers the read. *)
Definition parseExcelFile (f : file) : St App unit := start_read ExcelReader f.

(** [parseCSVFile] (lines 52-66), with [readAsText]. *)
Definition parseCSVFile (f : file) : St App unit := start_read CsvReader f.

(** [parseFile] (lines 17-26) with the callbacks of [handleFileChange];
    the choice of reader is [Decode.parseFile]. *)
Definition parseFile (f : file) : St App unit :=
  match Decode.parseFile (file_name f) with
  | inl ExcelReader => parseExcelFile f
  | inl CsvReader => parseCSVFile f
  | inr msg => onError msg
  end.

(** [handleFileChange] (lines 21-35). *)
Definition handleFileChange (chosen : option file) : St App unit :=
  match chosen with
  | None => st_ret tt
  | Some f =>
      update FILE_TEXT (set_textContent (file_name f)) ;;
      update FILE_TEXT (set_style "bold" "#4f46e5") ;;
      setUploadStatus "Parsing file..." "status-loading" ;;
      parseFile f
  end.

End Page.

(** ** Events *)

Inductive event :=
| FileChange (chosen : option file)   (** the change event of the file input *)
| ReadDone (i : nat)                  (** the [i]-th pending read delivers *)
| Typed (v : string)                  (** the user edits the course input *)
| KeyDown (key : string).             (** a key in the course input *)

(** The read leaves the queue of pending reads. *)
Definition finish_read (i : nat) : St App unit :=
  st_modify (fun s => mkApp (examsData s) (dom s) (delete i (pending s))).

(** The browser delivers a pending read: it leaves the queue and its
    [onload] runs. *)
Definition deliver (i : nat) : St App unit :=
  s <- st_get ;;
  match pending s !! i with
  | None => st_ret tt
  | Some (rd, f) =>
      finish_read i ;;
      Page.onload rd f
  end.

Definition handle (ev : event) : St App unit :=
  match ev with
  | FileChange f => Page.handleFileChange f
  | ReadDone i => deliver i
  | Typed v => update COURSE_INPUT (set_value v)
  | KeyDown k => Page.handleSearch k
  end.

Definition run (evs : list event) (s : App) : App :=
  fold_left (fun s ev => st_exec (handle ev) s) evs s.

Inductive reachable (s0 : App) : App -> Prop :=
| reach_init : reachable s0 s0
| reach_step s ev : reachable s0 s -> reachable s0 (st_exec (handle ev) s).

(** ** The initial page *)

Definition blank_element (cls : list string) : element :=
  mkElement EmptyString cls [] EmptyString false EmptyString EmptyString.

(** [examsData = []] (line 6); the search and results sections start
    hidden, since [processData] reveals them; no read is pending. *)
Definition init_app : App :=
  mkApp []
    (fun x => match x with
              | SEARCH_SECTION | RESULTS_SECTION | RESULTS_TABLE => blank_element [hidden_class]
              | _ => blank_element []
              end)
    [].

(** ** Computing with the handlers *)


Lemma exec_seq (m k : St App unit) s : st_exec (m ;; k) s = st_exec k (st_exec m s).
Proof. unfold st_exec, st_bind. by destruct (m s) as [[] s']. Qed.

Lemma exec_get {A} (k : App -> St App A) s : st_exec (x <- st_get ;; k x) s = st_exec (k s) s.
Proof. reflexivity. Qed.

Lemma exec_ret (s : App) : st_exec (st_ret tt) s = s.
Proof. reflexivity. Qed.

Lemma el_update_same x f s : el x (st_exec (update x f) s) = f (el x s).
Proof. unfold el, update, st_exec, st_modify. simpl. by rewrite decide_True. Qed.

Lemma el_update_other x y f s : y <> x -> el y (st_exec (update x f) s) = el y s.
Proof. intros Hne. unfold el, update, st_exec, st_modify. simpl. by rewrite decide_False. Qed.

Lemma examsData_update x f s : examsData (st_exec (update x f) s) = examsData s.
Proof. reflexivity. Qed.

Lemma pending_update x f s : pending (st_exec (update x f) s) = pending s.
Proof. reflexivity. Qed.

Lemma el_set_examsData l x s : el x (st_exec (set_examsData l) s) = el x s.
Proof. reflexivity. Qed.

Lemma examsData_set_examsData l s : examsData (st_exec (set_examsData l) s) = l.
Proof. reflexivity. Qed.

Lemma pending_set_examsData l s : pending (st_exec (set_examsData l) s) = pending s.
Proof. reflexivity. Qed.

#[export] Hint Rewrite exec_seq @exec_get exec_ret el_update_same examsData_update pending_update
  el_set_examsData examsData_set_examsData pending_set_examsData : page_rw.
#[export] Hint Rewrite el_update_other using discriminate : page_rw.



Lemma el_start_read rd f x s : el x (st_exec (start_read rd f) s) = el x s.
Proof. reflexivity. Qed.

Lemma examsData_start_read rd f s : examsData (st_exec (start_read rd f) s) = examsData s.
Proof. reflexivity. Qed.

Lemma el_finish_read i x s : el x (st_exec (finish_read i) s) = el x s.
Proof. reflexivity. Qed.

Lemma examsData_finish_read i s : examsData (st_exec (finish_read i) s) = examsData s.
Proof. reflexivity. Qed.

Lemma pending_finish_read i s : pending (st_exec (finish_read i) s) = delete i (pending s).
Proof. reflexivity. Qed.

#[export] Hint Rewrite el_start_read examsData_start_read el_finish_read examsData_finish_read
  pending_finish_read : page_rw.



(** The loop of lines 110-121 appends the rendered results to the body
    and touches nothing else. *)

Lemma append_rows_body results s :
  rows (el RESULTS_BODY (st_exec (st_forEach Page.appendRow results) s)) =
  (rows (el RESULTS_BODY s) ++ map Page.render_row results)%list.
Proof.
  revert s. induction results as [|exam results IH]; intros s; [by rewrite app_nil_r|].
  cbn [st_forEach]. rewrite exec_seq.
  rewrite IH. unfold Page.appendRow. rewrite el_update_same. simpl. by rewrite <- app_assoc.
Qed.

Lemma append_rows_other results y s :
  y <> RESULTS_BODY -> el y (st_exec (st_forEach Page.appendRow results) s) = el y s.
Proof.
  intros Hy. revert s. induction results as [|exam results IH]; intros s; [done|].
  cbn [st_forEach]. rewrite exec_seq.
  rewrite IH. unfold Page.appendRow. by rewrite el_update_other.
Qed.

Lemma append_rows_data results s : examsData (st_exec (st_forEach Page.appendRow results) s) = examsData s.
Proof.
  revert s. induction results as [|exam results IH]; intros s; [done|].
  cbn [st_forEach]. rewrite exec_seq, IH. reflexivity.
Qed.

Lemma append_rows_pending results s : pending (st_exec (st_forEach Page.appendRow results) s) = pending s.
Proof.
  revert s. induction results as [|exam results IH]; intros s; [done|].
  cbn [st_forEach]. rewrite exec_seq, IH. reflexivity.
Qed.

#[export] Hint Rewrite append_rows_body append_rows_data append_rows_pending : page_rw.
#[export] Hint Rewrite append_rows_other using discriminate : page_rw.

(** Unfold one event into the cases of its handler, with the state after
    each case computed by [page_rw]. *)
Ltac page_unfold :=
  unfold handle, deliver, Page.handleFileChange, Page.parseFile, Page.parseExcelFile,
    Page.parseCSVFile, Page.onload, Page.excel_onload, Page.csv_onload, Page.onSuccess,
    Page.onError, Page.processData, Page.handleSearch, Page.searchExams, Page.displayResults,
    Page.setUploadStatus.

Ltac handle_cases :=
  page_unfold;
  repeat (autorewrite with page_rw in *; (case_match || case_ifs));
  autorewrite with page_rw in *.

(** ** Invariants of the page *)

(** A visible results table has rows, and the message is then hidden. *)
Definition table_ok (s : App) : Prop :=
  is_hidden (el RESULTS_TABLE s) = false ->
  is_hidden (el RESULTS_MESSAGE s) = true /\ rows (el RESULTS_BODY s) <> [].

(** The search and the results sections are shown together. *)
Definition sections_ok (s : App) : Prop :=
  is_hidden (el SEARCH_SECTION s) = is_hidden (el RESULTS_SECTION s).









(** A property of states that every event preserves holds on every state
    reachable from a state that has it. *)
Lemma reachable_preserved (P : App -> Prop) s0 s :
  (forall ev s, P s -> P (st_exec (handle ev) s)) -> P s0 -> reachable s0 s -> P s.
Proof. intros Hstep H0. induction 1; auto. Qed.

Lemma run_reachable evs s0 : reachable s0 (run evs s0).
Proof.
  unfold run. cut (forall s, reachable s0 s -> reachable s0 (fold_left (fun s ev => st_exec (handle ev) s) evs s)).
  { intros H. apply H. constructor. }
  induction evs as [|ev evs IH]; intros s Hs; simpl; [done|]. apply IH. by constructor.
Qed.

Lemma run_cons ev evs s : run (ev :: evs) s = run evs (st_exec (handle ev) s).
Proof. reflexivity. Qed.

Lemma run_nil s : run [] s = s.
Proof. reflexivity. Qed.

Lemma handle_table_ok ev s : table_ok s -> table_ok (st_exec (handle ev) s).
Proof. unfold table_ok. destruct ev; handle_cases; done. Qed.

Lemma handle_sections_ok ev s : sections_ok s -> sections_ok (st_exec (handle ev) s).
Proof. unfold sections_ok. destruct ev; handle_cases; done. Qed.

(** ** What each handler does *)

Section Handlers.
Context (s : App).

Lemma processData_data raw : examsData (st_exec (Page.processData raw) s) = extractExamData raw.
Proof. unfold Page.processData, Page.setUploadStatus. by handle_cases. Qed.

Lemma processData_pending raw : pending (st_exec (Page.processData raw) s) = pending s.
Proof. unfold Page.processData, Page.setUploadStatus. by handle_cases. Qed.

Lemma processData_status raw :
  textContent (el UPLOAD_STATUS (st_exec (Page.processData raw) s)) =
  match extractExamData raw with
  | [] => "Error: No valid exam data found."
  | l => Page.loaded_message (length l)
  end.
Proof. unfold Page.processData, Page.setUploadStatus. handle_cases; by destruct (extractExamData raw). Qed.

(** A load that finds no entry writes the status and nothing else of the page. *)
Lemma processData_failed_other raw y :
  extractExamData raw = [] -> y <> UPLOAD_STATUS -> el y (st_exec (Page.processData raw) s) = el y s.
Proof.
  intros Hraw Hy. unfold Page.processData, Page.setUploadStatus. rewrite !exec_seq, exec_get.
  rewrite examsData_set_examsData, Hraw. cbn [length Nat.ltb].
  change (0 <? 0)%nat with false. cbv iota. rewrite exec_seq. by rewrite !el_update_other, el_set_examsData.
Qed.

Lemma displayResults_rows results msg :
  rows (el RESULTS_BODY (st_exec (Page.displayResults results msg) s)) = map Page.render_row results.
Proof. unfold Page.displayResults. destruct results; by handle_cases. Qed.

Lemma displayResults_table results msg :
  is_hidden (el RESULTS_TABLE (st_exec (Page.displayResults results msg) s)) = bool_decide (results = []).
Proof. unfold Page.displayResults. destruct results; by handle_cases. Qed.

Lemma displayResults_message results msg :
  results = [] -> textContent (el RESULTS_MESSAGE (st_exec (Page.displayResults results msg) s)) = msg.
Proof. intros ->. unfold Page.displayResults. by handle_cases. Qed.

Lemma displayResults_data results msg :
  examsData (st_exec (Page.displayResults results msg) s) = examsData s /\
  pending (st_exec (Page.displayResults results msg) s) = pending s.
Proof. unfold Page.displayResults. destruct results; by handle_cases. Qed.

End Handlers.

Section Events.
Context (s : App).

Lemma handleFileChange_pending f :
  pending (st_exec (handle (FileChange (Some f))) s) =
  match parseFile (file_name f) with
  | inl rd => (pending s ++ [(rd, f)])%list
  | inr _ => pending s
  end.
Proof. handle_cases; done. Qed.

Lemma handleFileChange_data chosen : examsData (st_exec (handle (FileChange chosen)) s) = examsData s.
Proof. handle_cases; done. Qed.

Lemma handleFileChange_status f m :
  parseFile (file_name f) = inr m ->
  textContent (el UPLOAD_STATUS (st_exec (handle (FileChange (Some f))) s)) = m /\
  classes (el UPLOAD_STATUS (st_exec (handle (FileChange (Some f))) s)) = ["status-error"].
Proof. intros Hp. handle_cases; rewrite Hp in *; by simplify_eq. Qed.

Lemma deliver_first rd f rest :
  pending s = (rd, f) :: rest ->
  st_exec (handle (ReadDone 0)) s = st_exec (Page.onload rd f) (st_exec (finish_read 0) s).
Proof. intros Hp. unfold handle, deliver. rewrite exec_get, Hp. simpl. by rewrite exec_seq. Qed.

Lemma typed_value v : value (el COURSE_INPUT (st_exec (handle (Typed v)) s)) = v.
Proof. reflexivity. Qed.

Lemma typed_data v : examsData (st_exec (handle (Typed v)) s) = examsData s.
Proof. reflexivity. Qed.

(** Enter runs the search on the stored entries and the input's value. *)
Lemma enter_search :
  st_exec (handle (KeyDown "Enter")) s =
  st_exec (Page.displayResults (fst (Search.searchExams (examsData s) (value (el COURSE_INPUT s))))
                               (snd (Search.searchExams (examsData s) (value (el COURSE_INPUT s))))) s.
Proof. unfold handle, Page.handleSearch, Page.searchExams. rewrite String.eqb_refl, exec_get. by destruct (Search.searchExams _ _). Qed.

End Events.

(** ** Properties of the page *)

(** C23: on every page reachable from a page where it holds (the initial
    page among them), a visible results table has at least one row and
    the results message is hidden. *)
Theorem table_invariant s0 s : table_ok s0 -> reachable s0 s -> table_ok s.
Proof. apply reachable_preserved, handle_table_ok. Qed.

Lemma table_invariant_witness :
  table_ok (run [FileChange None; Typed "cs"; KeyDown "Enter"] init_app).
Proof.
  apply (table_invariant init_app); [|apply run_reachable].
  unfold table_ok. vm_compute. discriminate.
Defined.

(** C24: the search section and the results section are hidden or shown
    together on every reachable page. *)
Theorem sections_invariant s0 s : sections_ok s0 -> reachable s0 s -> sections_ok s.
Proof. apply reachable_preserved, handle_sections_ok. Qed.

Lemma sections_invariant_witness : sections_ok (run [KeyDown "Enter"; Typed "x"] init_app).
Proof. apply (sections_invariant init_app); [reflexivity|apply run_reachable]. Defined.

(** C25: [processData] replaces the stored entries by the extracted ones,
    leaves the pending reads alone, and reports either the number of
    entries or that none was found. *)
Theorem processData_replaces_data s raw :
  examsData (st_exec (Page.processData raw) s) = extractExamData raw /\
  pending (st_exec (Page.processData raw) s) = pending s /\
  textContent (el UPLOAD_STATUS (st_exec (Page.processData raw) s)) =
    match extractExamData raw with
    | [] => "Error: No valid exam data found."
    | l => Page.loaded_message (length l)
    end.
Proof. split; [|split]; [apply processData_data|apply processData_pending|apply processData_status]. Qed.

(** C26: pressing Enter in the course input shows one row per result of
    [Search.searchExams] on the stored entries and the input's value, in
    order; the table is hidden exactly when there is none, and the
    message is then the one [Search.searchExams] returns; the stored
    entries and the pending reads are unchanged. *)
Theorem enter_displays_search s :
  let r := Search.searchExams (examsData s) (value (el COURSE_INPUT s)) in
  let s' := st_exec (handle (KeyDown "Enter")) s in
  rows (el RESULTS_BODY s') = map Page.render_row (fst r) /\
  is_hidden (el RESULTS_TABLE s') = bool_decide (fst r = []) /\
  (fst r = [] -> textContent (el RESULTS_MESSAGE s') = snd r) /\
  examsData s' = examsData s /\ pending s' = pending s.
Proof.
  cbv zeta. rewrite enter_search.
  set (r := Search.searchExams (examsData s) (value (el COURSE_INPUT s))).
  destruct (displayResults_data s (fst r) (snd r)).
  split_and!; [apply displayResults_rows|apply displayResults_table|apply displayResults_message|done|done].
Qed.

(** C27: choosing a CSV file when no read is pending, letting it load,
    typing a query and pressing Enter stores the entries extracted from
    the decoded file and shows exactly the rows of the search of that
    query among them. *)
Theorem csv_load_then_search s f q :
  pending s = [] -> parseFile (file_name f) = inl CsvReader ->
  let s' := run [FileChange (Some f); ReadDone 0; Typed q; KeyDown "Enter"] s in
  examsData s' = extractExamData (parseCSV (file_text f)) /\
  rows (el RESULTS_BODY s') =
    map Page.render_row (fst (Search.searchExams (extractExamData (parseCSV (file_text f))) q)).
Proof.
  intros Hp Hf. cbv zeta. rewrite !run_cons, run_nil.
  set (s1 := st_exec (handle (FileChange (Some f))) s).
  assert (pending s1 = [(CsvReader, f)]) as Hp1 by (unfold s1; by rewrite handleFileChange_pending, Hf, Hp).
  rewrite (deliver_first s1 CsvReader f [] Hp1). cbn [Page.onload]. unfold Page.csv_onload, Page.onSuccess.
  set (s2 := st_exec (Page.processData _) _).
  assert (examsData s2 = extractExamData (parseCSV (file_text f))) as Hd2 by apply processData_data.
  set (s3 := st_exec (handle (Typed q)) s2).
  rewrite enter_search. unfold s3.
  rewrite (proj1 (displayResults_data _ _ _)), displayResults_rows, typed_value, typed_data, Hd2. done.
Qed.

Definition file_a : file := mkFile "a.csv" ("Time,Course" ++ String newline "9:00 AM,CS 101") (inl "unused").
Definition file_b : file := mkFile "b.csv" "nothing here" (inl "unused").

Lemma csv_load_then_search_witness :
  let s' := run [FileChange (Some file_a); ReadDone 0; Typed "cs"; KeyDown "Enter"] init_app in
  examsData s' = extractExamData (parseCSV (file_text file_a)) /\
  rows (el RESULTS_BODY s') =
    map Page.render_row (fst (Search.searchExams (extractExamData (parseCSV (file_text file_a))) "cs")).
Proof. apply csv_load_then_search; reflexivity. Defined.

(** C30: the row written to [innerHTML] contains every field of the entry
    verbatim: nothing is escaped, so markup in a cell of the timetable is
    interpreted by the browser. *)
Theorem render_row_unescaped exam :
  includes (Page.render_row exam) (examDate exam) = true /\
  includes (Page.render_row exam) (time exam) = true /\
  includes (Page.render_row exam) (courseCode exam) = true /\
  includes (Page.render_row exam) (section exam) = true /\
  includes (Page.render_row exam) (title exam) = true /\
  includes (Page.render_row exam) (room exam) = true /\
  includes (Page.render_row exam) (instructor exam) = true.
Proof. unfold Page.render_row, Page.nl12. split_and!; auto 30 with cmf. Qed.

(** C31: a file whose name has no supported extension starts no read and
    keeps the stored entries; the status shows the message of [parseFile]
    with the error class. *)
Theorem unsupported_file_rejected s f m :
  parseFile (file_name f) = inr m ->
  let s' := st_exec (handle (FileChange (Some f))) s in
  pending s' = pending s /\ examsData s' = examsData s /\
  textContent (el UPLOAD_STATUS s') = m /\ classes (el UPLOAD_STATUS s') = ["status-error"].
Proof.
  intros Hp. cbv zeta. rewrite handleFileChange_pending, handleFileChange_data, Hp.
  destruct (handleFileChange_status s f m Hp). by split_and!.
Qed.

Lemma unsupported_file_rejected_witness :
  let s' := st_exec (handle (FileChange (Some (mkFile "notes.txt" "" (inl "unused"))))) init_app in
  pending s' = [] /\ examsData s' = [] /\
  textContent (el UPLOAD_STATUS s') = unsupported_message /\ classes (el UPLOAD_STATUS s') = ["status-error"].
Proof. apply (unsupported_file_rejected init_app). reflexivity. Defined.

(** ** Reads delivered in order *)

Lemma run_app evs1 evs2 s : run (evs1 ++ evs2) s = run evs2 (run evs1 s).
Proof. unfold run. apply fold_left_app. Qed.

Section Delivery.
Context (s : App).

Lemma onload_pending rd f : pending (st_exec (Page.onload rd f) s) = pending s.
Proof. handle_cases; done. Qed.

Lemma onload_file_text rd f : el FILE_TEXT (st_exec (Page.onload rd f) s) = el FILE_TEXT s.
Proof. handle_cases; done. Qed.

Lemma read_done_nil : pending s = [] -> st_exec (handle (ReadDone 0)) s = s.
Proof. intros Hp. unfold handle, deliver. by rewrite exec_get, Hp. Qed.

Lemma file_change_name f : textContent (el FILE_TEXT (st_exec (handle (FileChange (Some f))) s)) = file_name f.
Proof. handle_cases; done. Qed.

Lemma csv_onload_data f : examsData (st_exec (Page.onload CsvReader f) s) = extractExamData (parseCSV (file_text f)).
Proof. apply processData_data. Qed.

(** A load whose data has an entry hides the results table. *)
Lemma processData_hides_table raw :
  extractExamData raw <> [] -> is_hidden (el RESULTS_TABLE (st_exec (Page.processData raw) s)) = true.
Proof.
  intros Hne. unfold Page.processData. rewrite exec_seq, exec_get, examsData_set_examsData.
  destruct (extractExamData raw) eqn:E; [done|]. simpl. by handle_cases.
Qed.

End Delivery.

Lemma read_done_at s i rd f :
  pending s !! i = Some (rd, f) ->
  pending (st_exec (handle (ReadDone i)) s) = delete i (pending s) /\
  el FILE_TEXT (st_exec (handle (ReadDone i)) s) = el FILE_TEXT s /\
  st_exec (handle (ReadDone i)) s = st_exec (Page.onload rd f) (st_exec (finish_read i) s).
Proof.
  intros Hp. assert (st_exec (handle (ReadDone i)) s = st_exec (Page.onload rd f) (st_exec (finish_read i) s)) as E.
  { unfold handle, deliver. rewrite exec_get, Hp. simpl. by rewrite exec_seq. }
  rewrite E, onload_pending, onload_file_text, pending_finish_read, el_finish_read. done.
Qed.

Lemma read_done_first s rd f rest :
  pending s = (rd, f) :: rest ->
  pending (st_exec (handle (ReadDone 0)) s) = rest /\
  el FILE_TEXT (st_exec (handle (ReadDone 0)) s) = el FILE_TEXT s /\
  examsData (st_exec (handle (ReadDone 0)) s) = examsData (st_exec (Page.onload rd f) (st_exec (finish_read 0) s)).
Proof.
  intros Hp. rewrite (deliver_first s rd f rest Hp).
  by rewrite onload_pending, onload_file_text, pending_finish_read, el_finish_read, Hp.
Qed.

Lemma run_file_changes fs s :
  Forall (fun f => parseFile (file_name f) = inl CsvReader) fs ->
  pending (run (map (fun f => FileChange (Some f)) fs) s) = (pending s ++ map (pair CsvReader) fs)%list.
Proof.
  revert s. induction fs as [|f fs IH]; intros s Hfs; cbn [map]; [by rewrite run_nil, app_nil_r|].
  inversion Hfs as [|? ? Hf Hfs']; subst. rewrite run_cons, IH by done.
  rewrite handleFileChange_pending, Hf. by rewrite <- app_assoc.
Qed.

(** Delivering, in order, the reads of CSV files [l ++ [f]] leaves the
    data of [f], the file name on the page as it was, and no read. *)
Lemma run_deliveries l f s :
  pending s = map (pair CsvReader) (l ++ [f]) ->
  let s' := run (repeat (ReadDone 0) (length (l ++ [f]))) s in
  examsData s' = extractExamData (parseCSV (file_text f)) /\ el FILE_TEXT s' = el FILE_TEXT s /\ pending s' = [].
Proof.
  revert s. induction l as [|g l IH]; intros s Hp; cbv zeta.
  - simpl in Hp. destruct (read_done_first s CsvReader f [] Hp) as (Hp1 & Hf1 & Hd1).
    cbn [length app repeat]. rewrite run_cons, run_nil, Hd1, Hf1, Hp1. by rewrite csv_onload_data.
  - simpl in Hp. destruct (read_done_first s CsvReader g _ Hp) as (Hp1 & Hf1 & _).
    cbn [length app repeat]. rewrite run_cons.
    destruct (IH _ Hp1) as (? & ? & ?). split_and!; [done| |done]. by rewrite <- Hf1.
Qed.

(** ** Progress and ordering of the reads *)

(** C35: when the reads of CSV files complete in the order the files were
    chosen (the serialisation the specification asks of the page), the
    page ends with the name and the entries of the last file chosen and
    no read pending. *)
Theorem serialized_loads_last_wins s fs f :
  pending s = [] -> Forall (fun f => parseFile (file_name f) = inl CsvReader) (fs ++ [f]) ->
  let s' := run (map (fun f => FileChange (Some f)) (fs ++ [f]) ++ repeat (ReadDone 0) (length (fs ++ [f]))) s in
  examsData s' = extractExamData (parseCSV (file_text f)) /\
  textContent (el FILE_TEXT s') = file_name f /\ pending s' = [].
Proof.
  intros Hp Hcsv. cbv zeta. rewrite run_app.
  pose proof (run_file_changes (fs ++ [f]) s Hcsv) as Hq. rewrite Hp in Hq.
  destruct (run_deliveries fs f _ Hq) as (Hd & Hn & Hr). split_and!; [done| |done].
  rewrite Hn, map_app, run_app. apply file_change_name.
Qed.

Lemma serialized_loads_last_wins_witness :
  let s' := run (map (fun f => FileChange (Some f)) ([file_a] ++ [file_b]) ++
                 repeat (ReadDone 0) (length ([file_a] ++ [file_b]))) init_app in
  examsData s' = extractExamData (parseCSV (file_text file_b)) /\
  textContent (el FILE_TEXT s') = file_name file_b /\ pending s' = [].
Proof. apply serialized_loads_last_wins; [reflexivity|repeat constructor]. Defined.

(** C36: the delivery of an Excel read takes it off the queue and either
    reports the exception of [XLSX.read] (the status shows its message
    with the error class and the stored entries stay) or stores the
    entries extracted from the first sheet of the workbook. *)
Theorem excel_read_delivered s i f :
  pending s !! i = Some (ExcelReader, f) ->
  let s' := st_exec (handle (ReadDone i)) s in
  pending s' = delete i (pending s) /\
  match file_workbook f with
  | inl msg =>
      examsData s' = examsData s /\
      textContent (el UPLOAD_STATUS s') = "Error parsing file: " ++ msg /\
      classes (el UPLOAD_STATUS s') = ["status-error"]
  | inr wb => examsData s' = extractExamData (sheet_to_json (first_worksheet wb))
  end.
Proof.
  intros Hp. cbv zeta. unfold handle, deliver. rewrite exec_get, Hp, exec_seq.
  rewrite onload_pending, pending_finish_read. split; [done|].
  unfold Page.onload, Page.excel_onload. destruct (file_workbook f) as [msg|wb]; simpl.
  - unfold Page.onError, Page.setUploadStatus. by autorewrite with page_rw.
  - unfold Page.onSuccess. by rewrite processData_data.
Qed.

Definition file_broken : file := mkFile "t.xlsx" "" (inl "Corrupted zip").

Lemma excel_read_delivered_witness :
  let s' := st_exec (handle (ReadDone 0)) (run [FileChange (Some file_broken)] init_app) in
  pending s' = delete 0 (pending (run [FileChange (Some file_broken)] init_app)) /\
  match file_workbook file_broken with
  | inl msg =>
      (examsData s' = examsData (run [FileChange (Some file_broken)] init_app)) /\
      (textContent (el UPLOAD_STATUS s') = "Error parsing file: " ++ msg) /\
      (classes (el UPLOAD_STATUS s') = ["status-error"])
  | inr wb => examsData s' = extractExamData (sheet_to_json (first_worksheet wb))
  end.
Proof. apply (excel_read_delivered _ 0 file_broken). reflexivity. Defined.

(** ** The table shows a search of the stored entries *)

(** A visible table holds the rows of some search of the stored entries. *)
Definition table_fresh (s : App) : Prop :=
  is_hidden (el RESULTS_TABLE s) = false ->
  exists q, rows (el RESULTS_BODY s) = map Page.render_row (fst (Search.searchExams (examsData s) q)).

(** The grid a delivered read hands to [onSuccess], if any. *)
Definition load_grid (rd : reader) (f : file) : option grid :=
  match rd with
  | CsvReader => Some (parseCSV (file_text f))
  | ExcelReader => match excel_rawData (file_workbook f) with inr g => Some g | inl _ => None end
  end.

(** The event delivers a read whose data has no entry. *)
Definition empty_load (s : App) (ev : event) : Prop :=
  exists i rd f g, ev = ReadDone i /\ pending s !! i = Some (rd, f) /\
                   load_grid rd f = Some g /\ extractExamData g = [].

Lemma processData_fresh s raw :
  extractExamData raw <> [] -> table_fresh (st_exec (Page.processData raw) s).
Proof. intros Hne. unfold table_fresh. by rewrite processData_hides_table. Qed.

(** C37: every event other than the delivery of a load without entries
    keeps the table showing a search of the stored entries; together
    with C28 this locates the stale table exactly at such loads. *)
Theorem table_fresh_step s ev : table_fresh s -> ~ empty_load s ev -> table_fresh (st_exec (handle ev) s).
Proof.
  intros Hfr Hne. destruct ev as [chosen|i|v|key].
  - unfold table_fresh. rewrite handleFileChange_data. handle_cases; done.
  - unfold handle, deliver. rewrite exec_get. destruct (pending s !! i) as [[rd f]|] eqn:Hi; [|done].
    rewrite exec_seq.
    assert (forall g, load_grid rd f = Some g ->
              table_fresh (st_exec (Page.processData g) (st_exec (finish_read i) s))) as Hload.
    { intros g Hg. apply processData_fresh. intros He. apply Hne. by exists i, rd, f, g. }
    destruct rd; unfold Page.onload; [|by apply Hload].
    unfold Page.excel_onload. destruct (excel_rawData (file_workbook f)) as [msg|g] eqn:Hf;
      [|apply Hload; simpl; by rewrite Hf].
    unfold table_fresh, Page.onError, Page.setUploadStatus. by autorewrite with page_rw.
  - exact Hfr.
  - destruct (String.eqb_spec key "Enter") as [->|Hk].
    2: { unfold handle, Page.handleSearch. by rewrite (proj2 (String.eqb_neq _ _) Hk). }
    unfold table_fresh. rewrite enter_search. intros _. exists (value (el COURSE_INPUT s)).
    by rewrite displayResults_rows, (proj1 (displayResults_data _ _ _)).
Qed.

Lemma table_fresh_step_witness :
  table_fresh (st_exec (handle (KeyDown "Enter")) init_app).
Proof.
  apply table_fresh_step.
  - unfold table_fresh. vm_compute. discriminate.
  - intros (i & rd & f & g & Hev & _). discriminate.
Defined.

(** ** Reads are started only for accepted files *)

(** Every pending read was started by [parseFile] for its file: its
    reader is the one the file name selects. *)
Definition reads_accepted (s : App) : Prop :=
  Forall (fun '(rd, f) => parseFile (file_name f) = inl rd) (pending s).

Lemma read_done_pending s i :
  pending (st_exec (handle (ReadDone i)) s) =
  match pending s !! i with Some _ => delete i (pending s) | None => pending s end.
Proof.
  unfold handle at 1, deliver. rewrite exec_get. destruct (pending s !! i) as [[rd f]|]; [|done].
  by rewrite exec_seq, onload_pending, pending_finish_read.
Qed.

Lemma key_down_pending s k : pending (st_exec (handle (KeyDown k)) s) = pending s.
Proof. handle_cases; done. Qed.

Lemma handle_reads_accepted ev s : reads_accepted s -> reads_accepted (st_exec (handle ev) s).
Proof.
  unfold reads_accepted. intros Hs. destruct ev as [[f|]|i|v|k].
  - rewrite handleFileChange_pending. destruct (parseFile (file_name f)) eqn:Hf; [|done].
    apply Forall_app. by split; [|apply Forall_singleton].
  - done.
  - rewrite read_done_pending. destruct (pending s !! i); [by apply Forall_delete|done].
  - exact Hs.
  - by rewrite key_down_pending.
Qed.

(** C39: on every page reachable from one without pending reads, each
    pending read is of the reader its file name selects: no read of an
    unsupported file is ever started, and the CSV [onload] only runs on
    files whose name ends in .csv. *)
Theorem reads_accepted_invariant s0 s : pending s0 = [] -> reachable s0 s -> reads_accepted s.
Proof. intros H0. apply reachable_preserved; [apply handle_reads_accepted|]. unfold reads_accepted. by rewrite H0. Qed.

Lemma reads_accepted_invariant_witness :
  reads_accepted (run [FileChange (Some file_a); FileChange (Some file_broken)] init_app).
Proof. apply (reads_accepted_invariant init_app); [reflexivity|apply run_reachable]. Defined.

(** ** Findings: empty loads and reads out of order *)

Lemma onload_load_grid rd f g : load_grid rd f = Some g -> Page.onload rd f = Page.processData g.
Proof.
  destruct rd; simpl.
  - unfold Page.excel_onload. destruct (excel_rawData (file_workbook f)); [discriminate|].
    by intros [= ->].
  - by intros [= <-].
Qed.

(** C28: a delivered load whose data has no entry empties the stored
    entries and changes nothing on the page but the status: a results
    table shown for the previous file stays visible with its rows
    although no entry is stored any more. *)
Theorem empty_load_keeps_page s i rd f g :
  pending s !! i = Some (rd, f) -> load_grid rd f = Some g -> extractExamData g = [] ->
  let s' := st_exec (handle (ReadDone i)) s in
  examsData s' = [] /\ forall y, y <> UPLOAD_STATUS -> el y s' = el y s.
Proof.
  intros Hp Hg He. cbv zeta. destruct (read_done_at s i rd f Hp) as (_ & _ & ->).
  rewrite (onload_load_grid rd f g Hg). split.
  - by rewrite processData_data.
  - intros y Hy. by rewrite processData_failed_other, el_finish_read.
Qed.

(** The page after a search of the entries of [file_a], with the read
    of [file_b] (no entries) pending. *)
Definition searched_then_b : App :=
  run [FileChange (Some file_a); ReadDone 0; Typed "cs"; KeyDown "Enter"; FileChange (Some file_b)] init_app.

Lemma empty_load_keeps_page_witness :
  let s' := st_exec (handle (ReadDone 0)) searched_then_b in
  examsData s' = [] /\ forall y, y <> UPLOAD_STATUS -> el y s' = el y searched_then_b.
Proof. apply (empty_load_keeps_page _ 0 CsvReader file_b (parseCSV (file_text file_b))); vm_compute; reflexivity. Defined.

(** C29: for any two CSV files chosen one after the other, if the read of
    the second completes first, the page ends with the name of the second
    file and the entries of the first: nothing discards the read of a
    file that a later choice has superseded. *)
Theorem out_of_order_reads s a b :
  pending s = [] -> parseFile (file_name a) = inl CsvReader -> parseFile (file_name b) = inl CsvReader ->
  let s' := run [FileChange (Some a); FileChange (Some b); ReadDone 1; ReadDone 0] s in
  textContent (el FILE_TEXT s') = file_name b /\
  examsData s' = extractExamData (parseCSV (file_text a)).
Proof.
  intros Hp Ha Hb. cbv zeta.
  pose proof (run_file_changes [a; b] s ltac:(by repeat constructor)) as Hq.
  rewrite Hp in Hq. cbn [map] in Hq. rewrite !run_cons, run_nil. rewrite !run_cons, run_nil in Hq.
  set (s2 := st_exec (handle (FileChange (Some b))) (st_exec (handle (FileChange (Some a))) s)) in *.
  destruct (read_done_at s2 1 CsvReader b ltac:(by rewrite Hq)) as (Hp3 & Hf3 & _).
  rewrite Hq in Hp3. change (delete 1 [(CsvReader, a); (CsvReader, b)]) with [(CsvReader, a)] in Hp3.
  destruct (read_done_first _ CsvReader a [] Hp3) as (_ & Hf4 & Hd4). split.
  - rewrite Hf4, Hf3. apply file_change_name.
  - rewrite Hd4. apply csv_onload_data.
Qed.

Lemma out_of_order_reads_witness :
  let s' := run [FileChange (Some file_a); FileChange (Some file_b); ReadDone 1; ReadDone 0] init_app in
  textContent (el FILE_TEXT s') = file_name file_b /\
  examsData s' = extractExamData (parseCSV (file_text file_a)).
Proof. apply out_of_order_reads; reflexivity. Defined.
